(** * Pathspider: the TFO plugin, the ECN flow tupleizer and the resolver client

    A shallow embedding of the Python sources

      - [pathspider/plugins/tfospider.py]  ([_tfocookie], [tfoworking],
        [TFOSpider.connect], [TFOSpider.merge]),
      - [ecnspider2/ecnspider.py]          ([EcnSpider2.tupleize_flow]),
      - [pathspider/client/resolver.py]    ([take], [ResolverClient._fetch_result]),

    together with the properties of the measurement engine that the
    specification states about them.  Python integers are unbounded and are
    modelled by [Z]; [bytes] objects are lists of integers; dictionaries are
    finite maps keyed by strings; exceptions are explicit results. *)

From Stdlib Require Import ZArith QArith Lia Lqa Bool.
From stdpp Require Import gmap strings list fin_maps pretty.

Local Open Scope Z_scope.

(** ** Python values, exceptions and results *)

Module Py.

(** The exception classes the modelled code can raise or catch. *)
Inductive exn : Type :=
| IndexError
| KeyError
| TypeError
| AttributeError
| OverflowError
| UnboundLocalError
| RuntimeError
| OSError            (* an OSError that is not a TimeoutError *)
| TimeoutError       (* subclass of OSError *)
| TimeoutException.  (* resolver.TimeoutException *)

(** [isinstance(e, OSError)]: [TimeoutError] derives from [OSError]. *)
Definition is_OSError (e : exn) : bool :=
  match e with
  | OSError | TimeoutError => true
  | _ => false
  end.

Definition is_TimeoutError (e : exn) : bool :=
  match e with
  | TimeoutError => true
  | _ => false
  end.

(** What running a piece of code gives: a value, a raised exception, or
    (for loops run with a bound on the number of iterations) no answer
    within the bound. *)
Inductive result (A : Type) : Type :=
| Ret (a : A)
| Raise (e : exn)
| OutOfFuel.
Arguments Ret {A} a.
Arguments Raise {A} e.
Arguments OutOfFuel {A}.

Definition bind {A B} (r : result A) (k : A -> result B) : result B :=
  match r with
  | Ret a => k a
  | Raise e => Raise e
  | OutOfFuel => OutOfFuel
  end.

(** The dynamically typed values that occur in flow dictionaries, jobs
    and records. *)
Inductive pyval : Type :=
| VNone
| VBool (b : bool)
| VInt (z : Z)
| VStr (s : string).

#[global] Instance pyval_eq_dec : EqDecision pyval.
Proof. solve_decision. Defined.

#[global] Instance exn_eq_dec : EqDecision exn.
Proof. solve_decision. Defined.

(** Integer view of a value: [bool] is a subclass of [int]. *)
Definition as_int (v : pyval) : option Z :=
  match v with
  | VInt z => Some z
  | VBool b => Some (if b then 1 else 0)
  | _ => None
  end.

(** [a == b]. *)
Definition py_eq (a b : pyval) : bool :=
  match as_int a, as_int b with
  | Some x, Some y => x =? y
  | _, _ => bool_decide (a = b)
  end.

(** [bool(v)]. *)
Definition truthy (v : pyval) : bool :=
  match v with
  | VNone => false
  | VBool b => b
  | VInt z => negb (z =? 0)
  | VStr s => negb (bool_decide (s = EmptyString))
  end.

(** [a | b] on integers; any other operand type raises [TypeError]. *)
Definition py_or (a b : pyval) : result pyval :=
  match as_int a, as_int b with
  | Some x, Some y => Ret (VInt (Z.lor x y))
  | _, _ => Raise TypeError
  end.

Definition py_and (a b : pyval) : result pyval :=
  match as_int a, as_int b with
  | Some x, Some y => Ret (VInt (Z.land x y))
  | _, _ => Raise TypeError
  end.

Definition py_shl (a b : pyval) : result pyval :=
  match as_int a, as_int b with
  | Some x, Some y => Ret (VInt (Z.shiftl x y))
  | _, _ => Raise TypeError
  end.

(** [d[k]] on a dictionary. *)
Definition getitem (d : gmap string pyval) (k : string) : result pyval :=
  match d !! k with
  | Some v => Ret v
  | None => Raise KeyError
  end.

(** [l[i]] on a sequence, with Python's negative indices. *)
Definition index {A} (l : list A) (i : Z) : result A :=
  let n := Z.of_nat (length l) in
  let j := if i <? 0 then i + n else i in
  if (0 <=? j) && (j <? n) then
    match l !! Z.to_nat j with
    | Some x => Ret x
    | None => Raise IndexError
    end
  else Raise IndexError.

(** [l[start:stop]]. *)
Definition slice {A} (l : list A) (start stop : Z) : list A :=
  let n := Z.of_nat (length l) in
  let norm i := if i <? 0 then Z.max (i + n) 0 else Z.min i n in
  drop (Z.to_nat (norm start)) (take (Z.to_nat (norm stop)) l).

End Py.

Import Py.

Declare Scope py_scope.
Notation "'let!' x ':=' c 'in' k" := (Py.bind c (fun x => k))
  (at level 10, x name, c at level 100, k at level 200) : py_scope.
Local Open Scope py_scope.

(** ** The TCP header view of python-libtrace used by the chain functions *)

Record tcp_hdr : Type := {
  data : list Z;        (* [tcp.data]: header, options and payload bytes *)
  doff : Z;             (* [tcp.doff]: data offset in 32-bit words *)
  src_port : Z;
  seq_nbr : Z;
  ack_nbr : Z;
  fin_flag : bool
}.

(** ** [_tfocookie]: the TCP option parser *)

Module TfoCookie.

(** The local variable [options] starts as a [bytes] slice; line 74
    ([options = options[cp+1]]) rebinds it to an integer. *)
Inductive optvar : Type :=
| OBytes (b : list Z)
| OInt (n : Z).

(** The values [_tfocookie] returns: [None], a pair [(0, kind)], [False]. *)
Inductive cookie : Type :=
| CNone
| CPair (a b : Z)
| CFalse.

(** [bool(_tfocookie(tcp))]. *)
Definition cookie_truthy (c : cookie) : bool :=
  match c with
  | CPair _ _ => true
  | _ => false
  end.

(** [not options]. *)
Definition opt_empty (o : optvar) : bool :=
  match o with
  | OBytes b => match b with [] => true | _ => false end
  | OInt n => n =? 0
  end.

(** [options[i]]: an [int] is not subscriptable. *)
Definition opt_index (o : optvar) (i : Z) : result Z :=
  match o with
  | OBytes b => index b i
  | OInt _ => Raise TypeError
  end.

(** [len(options)]. *)
Definition opt_len (o : optvar) : result Z :=
  match o with
  | OBytes b => Ret (Z.of_nat (length b))
  | OInt _ => Raise TypeError
  end.

(** The state carried round the [while True] loop. *)
Record state : Type := { options : optvar; cp : Z }.

(** What one pass through the loop body does: go round again with a new
    state, or leave the function with a value (or with an exception). *)
Definition step : Type := result (state + cookie).
Definition Continue (s : state) : step := Ret (inl s).
Definition Return (c : cookie) : step := Ret (inr c).

(** The [else] branch of line 78, attached to [if options[0] == 254]. *)
Definition generic_rule (s : state) : step :=
  let o := s.(options) in
  let! l := opt_index o (s.(cp) + 1) in
  let! n := opt_len o in
  if l <=? n then Return CFalse
  else
    let! l' := opt_index o (s.(cp) + 1) in
    Continue {| options := o; cp := s.(cp) + l' |}.

(** Lines 70-83: the test reads [options[0]], not [options[cp]]; when the
    magic does not match, control reaches the end of the loop body. *)
Definition kind254_rule (s : state) : step :=
  let o := s.(options) in
  let! k0 := opt_index o 0 in
  if k0 =? 254 then
    let! a := opt_index o (s.(cp) + 2) in
    let! b := opt_index o (s.(cp) + 3) in
    if (a =? 249) && (b =? 137) then
      let! l := opt_index o (s.(cp) + 1) in
      if l <=? 4 then
        let! v := opt_index o (s.(cp) + 1) in
        Continue {| options := OInt v; cp := s.(cp) |}
      else Return (CPair 0 254)
    else Continue s
  else generic_rule s.

(** Lines 48-83, one iteration. *)
Definition body (s : state) : step :=
  let o := s.(options) in
  if opt_empty o then Return CNone
  else
    let! k := opt_index o s.(cp) in
    if k =? 0 then Return CNone
    else if k =? 1 then Continue {| options := o; cp := s.(cp) + 1 |}
    else if k =? 34 then
      let! l := opt_index o (s.(cp) + 1) in
      if l =? 2 then Continue {| options := o; cp := s.(cp) + 2 |}
      else Return (CPair 0 34)
    else if k =? 253 then
      let! a := opt_index o (s.(cp) + 2) in
      let! b := opt_index o (s.(cp) + 3) in
      if (a =? 249) && (b =? 137) then
        let! l := opt_index o (s.(cp) + 1) in
        if l <=? 4 then
          let! l' := opt_index o (s.(cp) + 1) in
          Continue {| options := o; cp := s.(cp) + l' |}
        else Return (CPair 0 253)
      else kind254_rule s
    else kind254_rule s.

(** The [while True] loop, run for at most [fuel] iterations. *)
Fixpoint loop (fuel : nat) (s : state) : result cookie :=
  match fuel with
  | O => OutOfFuel
  | S fuel' =>
      match body s with
      | Ret (inl s') => loop fuel' s'
      | Ret (inr c) => Ret c
      | Raise e => Raise e
      | OutOfFuel => OutOfFuel
      end
  end.

(** Line 44: [options = tcp.data[20:tcp.doff*4]]; line 45: [cp = 0]. *)
Definition init (tcp : tcp_hdr) : state :=
  {| options := OBytes (slice tcp.(data) 20 (tcp.(doff) * 4)); cp := 0 |}.

Definition _tfocookie (fuel : nat) (tcp : tcp_hdr) : result cookie :=
  loop fuel (init tcp).

(** A segment whose 20-byte fixed header is followed by [opts] and then by
    [payload]; used to build concrete inputs. *)
Definition segment (opts payload : list Z) (sp sq ak : Z) : tcp_hdr :=
  {| data := replicate 20 0 ++ opts ++ payload;
     doff := 5 + Z.of_nat (length opts) / 4;
     src_port := sp; seq_nbr := sq; ack_nbr := ak; fin_flag := false |}.

End TfoCookie.

Import TfoCookie.

(** ** The chain functions of the TFO plugin *)

Module TfoChain.

(** A flow context is the dictionary the observer threads through the
    chains. *)
Abbreviation flowctx := (gmap string pyval).

(** [v < z] and [v > z] for an integer constant [z]. *)
Definition py_lt (v : pyval) (z : Z) : result bool :=
  match as_int v with
  | Some x => Ret (x <? z)
  | None => Raise TypeError
  end.

Definition py_gt (v : pyval) (z : Z) : result bool :=
  match as_int v with
  | Some x => Ret (z <? x)
  | None => Raise TypeError
  end.

(** [a + b]. *)
Definition py_add (a b : pyval) : result pyval :=
  match a, b with
  | VStr x, VStr y => Ret (VStr (x ++ y))
  | _, _ =>
      match as_int a, as_int b with
      | Some x, Some y => Ret (VInt (x + y))
      | _, _ => Raise TypeError
      end
  end.

(** Line 30. *)
Definition tcpcompleted (rec : flowctx) (tcp : tcp_hdr) (rev : bool) : bool :=
  negb tcp.(fin_flag).

(** Lines 33-37. *)
Definition tfosetup (rec : flowctx) : flowctx * bool :=
  (<["tfoworking" := VInt 0]>
     (<["tfo_len" := VInt (-1000)]>
        (<["tfo_seq" := VInt (-1000)]> rec)), true).

(** Lines 86-111.  The operator [&] does not short-circuit: every operand
    of a condition is evaluated. *)
Definition tfoworking (fuel : nat) (rec : flowctx) (tcp : tcp_hdr) (rev : bool)
  : result (flowctx * bool) :=
  let! sp := getitem rec "sp" in
  let outgoing := py_eq sp (VInt tcp.(src_port)) in
  let data_len := Z.of_nat (length tcp.(data)) - tcp.(doff) * 4 in
  let! c := _tfocookie fuel tcp in
  let has_cookie := cookie_truthy c in
  let has_data := 0 <? data_len in
  let! s1 := getitem rec "tfo_seq" in
  let! unset := py_lt s1 0 in
  if unset && negb has_cookie then Ret (rec, true)
  else if has_cookie && has_data && outgoing then
    Ret (<["tfoworking" := VInt 1]>
           (<["tfo_len" := VInt data_len]>
              (<["tfo_seq" := VInt tcp.(seq_nbr)]> rec)), true)
  else
    let! s2 := getitem rec "tfo_seq" in
    let! recorded := py_gt s2 0 in
    let! s3 := getitem rec "tfo_seq" in
    let! l3 := getitem rec "tfo_len" in
    let! sum := py_add s3 l3 in
    let! expected := py_add sum (VInt 1) in
    if negb outgoing && recorded && py_eq (VInt tcp.(ack_nbr)) expected then
      Ret (<["tfoworking" := VInt 2]> rec, false)
    else
      let! s4 := getitem rec "tfo_seq" in
      let! next := py_add s4 (VInt 1) in
      if outgoing && has_data && py_eq (VInt tcp.(seq_nbr)) next then
        Ret (<["tfo_len" := VInt (-500)]>
               (<["tfo_seq" := VInt (-500)]> rec), true)
      else Ret (rec, true).

End TfoChain.

(** ** [TFOSpider.connect] *)

Module Connect.

Definition CONN_OK : Z := 0.
Definition CONN_FAILED : Z := 1.
Definition CONN_TIMEOUT : Z := 2.

Inductive family : Type := AF_INET | AF_INET6.

(** [Connection = namedtuple("Connection", ["client", "port", "state"])]. *)
Record Connection (sock : Type) : Type := {
  client : sock;
  port : Z;
  state : Z
}.
Arguments Build_Connection {sock}.
Arguments client {sock}.
Arguments port {sock}.
Arguments state {sock}.

(** [s.count(':')]. *)
Fixpoint count_colon (s : string) : Z :=
  match s with
  | EmptyString => 0
  | String c s' => (if Ascii.eqb c (Ascii.ascii_of_nat 58) then 1 else 0) + count_colon s'
  end.

(** [job[0].count(':')]: only a string has the method. *)
Definition count_method (v : pyval) : result Z :=
  match v with
  | VStr s => Ret (count_colon s)
  | _ => Raise AttributeError
  end.

(** [str(v)]. *)
Definition py_str (v : pyval) : string :=
  match v with
  | VNone => "None"
  | VBool true => "True"
  | VBool false => "False"
  | VInt z => pretty z
  | VStr s => s
  end.

Definition crlf : string := String (Ascii.ascii_of_nat 13) (String (Ascii.ascii_of_nat 10) EmptyString).

Section WithSockets.

(** The operating system behind the [socket] module: [world] is its
    state, [sock] the type of socket objects. *)
Context {world sock : Type}.

(** A computation that uses the sockets. *)
Definition io (A : Type) : Type := world -> result A * world.

Record socket_api : Type := {
  (* [socket.socket(af, socket.SOCK_STREAM)] *)
  socket_new : family -> io sock;
  (* [sock.settimeout(t)] *)
  settimeout : sock -> Z -> io unit;
  (* [sock.connect((host, port))] *)
  sock_connect : sock -> pyval -> pyval -> io unit;
  (* [sock.sendto(message, socket.MSG_FASTOPEN, (host, port))] *)
  sendto_fastopen : sock -> string -> pyval -> pyval -> io unit;
  (* [sock.close()] *)
  sock_close : sock -> io unit;
  (* [sock.getsockname()[1]] *)
  getsockname_port : sock -> io Z
}.

Variable api : socket_api.

Definition ret {A} (a : A) : io A := fun w => (Ret a, w).
Definition throw {A} (e : exn) : io A := fun w => (Raise e, w).
Definition lift {A} (r : result A) : io A := fun w => (r, w).

Definition iobind {A B} (m : io A) (k : A -> io B) : io B :=
  fun w =>
    match m w with
    | (Ret a, w') => k a w'
    | (Raise e, w') => (Raise e, w')
    | (OutOfFuel, w') => (OutOfFuel, w')
    end.

(** [try: m  except <class>: h]: [h] gets the exception when [catches]
    accepts its class. *)
Definition try_except {A} (m : io A) (catches : exn -> bool) (h : exn -> io A)
  : io A :=
  fun w =>
    match m w with
    | (Raise e, w') => if catches e then h e w' else (Raise e, w')
    | r => r
    end.

(** Reading the local variable [sock]. *)
Definition read_local (v : option sock) : io sock :=
  match v with
  | Some s => ret s
  | None => throw UnboundLocalError
  end.

(** [Connection(sock, sock.getsockname()[1], st)]. *)
Definition make_connection (v : option sock) (st : Z) : io (Connection sock) :=
  iobind (read_local v) (fun s =>
  iobind (read_local v) (fun s' =>
  iobind (api.(getsockname_port) s') (fun p =>
  ret (Build_Connection s p st)))).

(** The two handlers of lines 174-177 and 197-200; any other exception
    class propagates. *)
Definition classify (v : option sock) (e : exn) : io (Connection sock) :=
  if is_TimeoutError e then make_connection v CONN_TIMEOUT
  else make_connection v CONN_FAILED.

(** Lines 166-177. *)
Definition connect_regular (conn_timeout : Z) (af : family) (job : list pyval)
  : io (Connection sock) :=
  iobind (api.(socket_new) af) (fun s =>
  try_except
    (iobind (api.(settimeout) s conn_timeout) (fun _ =>
     iobind (lift (index job 0)) (fun h =>
     iobind (lift (index job 1)) (fun p =>
     iobind (api.(sock_connect) s h p) (fun _ =>
     make_connection (Some s) CONN_OK)))))
    is_OSError
    (classify (Some s))).

(** Lines 184-189: the cookie request; whatever it raises is dropped.
    Gives the binding of the local variable [sock] afterwards. *)
Definition request_cookie (af : family) (job : list pyval) (message : string)
  : world -> option sock * world :=
  fun w =>
    match api.(socket_new) af w with
    | (Ret s, w1) =>
        match iobind (lift (index job 0)) (fun h =>
              iobind (lift (index job 1)) (fun p =>
              iobind (api.(sendto_fastopen) s message h p) (fun _ =>
              api.(sock_close) s))) w1 with
        | (_, w2) => (Some s, w2)
        end
    | (_, w1) => (None, w1)
    end.

(** Lines 192-200: [sock] is rebound inside the [try]; when creating the
    second socket raises, the handlers see the earlier binding. *)
Definition use_cookie (af : family) (job : list pyval) (message : string)
  (v : option sock) : io (Connection sock) :=
  fun w =>
    match api.(socket_new) af w with
    | (Ret s, w1) =>
        try_except
          (iobind (lift (index job 0)) (fun h =>
           iobind (lift (index job 1)) (fun p =>
           iobind (api.(sendto_fastopen) s message h p) (fun _ =>
           make_connection (Some s) CONN_OK))))
          is_OSError
          (classify (Some s)) w1
    | (Raise e, w1) =>
        if is_OSError e then classify v e w1 else (Raise e, w1)
    | (OutOfFuel, w1) => (OutOfFuel, w1)
    end.

(** Lines 180-200. *)
Definition connect_tfo (af : family) (job : list pyval) : io (Connection sock) :=
  iobind (lift (index job 2)) (fun host =>
  let message :=
    ("GET / HTTP/1.1" ++ crlf ++ "host: " ++ py_str host ++ crlf ++ crlf)%string in
  fun w =>
    match request_cookie af job message w with
    | (v, w1) => use_cookie af job message v w1
    end).

(** Lines 158-200.  A call that runs off the end of the body gives
    [None]. *)
Definition connect (conn_timeout : Z) (job : list pyval) (config : Z)
  : io (option (Connection sock)) :=
  iobind (lift (index job 0)) (fun j0 =>
  iobind (lift (count_method j0)) (fun colons =>
  let af := if 1 <=? colons then AF_INET6 else AF_INET in
  if config =? 0 then
    iobind (connect_regular conn_timeout af job) (fun c => ret (Some c))
  else if config =? 1 then
    iobind (connect_tfo af job) (fun c => ret (Some c))
  else ret None)).

End WithSockets.

Arguments socket_api : clear implicits.
Arguments io : clear implicits.

End Connect.

(** ** [TFOSpider.merge]: the correlator's join of one active record *)

Module Merge.

(** [SpiderRecord = namedtuple("SpiderRecord", ["ip", "rport", "port",
    "host", "tfostate", "connstate", "rank"])]. *)
Record SpiderRecord : Type := {
  ip : pyval;
  rport : pyval;
  port : pyval;
  host : pyval;
  tfostate : pyval;
  connstate : pyval;
  rank : pyval
}.

(** Modelled from the spec: [NO_FLOW] is imported from [pathspider.base],
    which is not among the sources.  It is the Unobserved placeholder, "a
    sentinel standing in for no matching Flow Record was captured, distinct
    from an all-zero Flow Record"; so the first argument of [merge] is
    either that sentinel or a flow dictionary, and [flow == NO_FLOW] holds
    of the sentinel only. *)
Inductive flow_arg : Type :=
| NO_FLOW
| Flow (d : gmap string pyval).

(** Lines 236-243: the dictionary that is put on the queue. *)
Definition merged (flow : flow_arg) (res : SpiderRecord) : gmap string pyval :=
  match flow with
  | NO_FLOW =>
      <["observed" := VBool false]>
        (<["tfostate" := res.(tfostate)]>
           (<["connstate" := res.(connstate)]>
              (<["dp" := res.(rport)]>
                 (<["sp" := res.(port)]>
                    (<["dip" := res.(ip)]> ∅)))))
  | Flow d =>
      <["observed" := VBool true]>
        (<["tfostate" := res.(tfostate)]>
           (<["rank" := res.(rank)]>
              (<["host" := res.(host)]>
                 (<["connstate" := res.(connstate)]> d))))
  end.

(** Lines 234-246; [outqueue] is the queue before the call, the result is
    the queue after [self.outqueue.put(flow)]. *)
Definition merge (outqueue : list (gmap string pyval))
  (flow : flow_arg) (res : SpiderRecord) : list (gmap string pyval) :=
  outqueue ++ [merged flow res].

End Merge.

(** ** [EcnSpider2.tupleize_flow] *)

Module Ecn.

Definition TCP_RST : Z := 4.

(** [FlowRecord = namedtuple("FlowRecord", ["ip", "port", "octets", "fif",
    "fsf", "fuf", "fir", "fsr", "fur"])]. *)
Record FlowRecord : Type := {
  ip : pyval;
  port : pyval;
  octets : pyval;
  fif : pyval;
  fsf : pyval;
  fuf : pyval;
  fir : pyval;
  fsr : pyval;
  fur : pyval
}.

(** The attributes of [self] that [tupleize_flow] reads. *)
Record spider : Type := {
  local_ip4 : pyval;
  local_ip6 : pyval
}.

(** Lines 139-144, the body of the [try]: [true] when one of the three
    tests returns [None]. *)
Definition short_circuit (flow : gmap string pyval) : result bool :=
  let! proto := getitem flow "protocolIdentifier" in
  if negb (py_eq proto (VInt 6)) then Ret true
  else
    let! dport := getitem flow "destinationTransportPort" in
    if negb (py_eq dport (VInt 80)) then Ret true
    else
      let! flags := getitem flow "initialTCPFlags" in
      let! masked := py_or flags (VInt TCP_RST) in
      if truthy masked then Ret true else Ret false.

(** [k in flow and flow[k] == v]. *)
Definition has_value (flow : gmap string pyval) (k : string) (v : pyval) : bool :=
  match flow !! k with
  | Some x => py_eq x v
  | None => false
  end.

(** Lines 150-157; [None] stands for the [return None] of the [else].  The
    [elif] of lines 153-154 is read with its missing opening parenthesis
    restored. *)
Definition select_ip (self : spider) (flow : gmap string pyval)
  : result (option pyval) :=
  if has_value flow "sourceIPv4Address" self.(local_ip4) then
    let! a := getitem flow "destinationIPv4Address" in Ret (Some a)
  else if has_value flow "sourceIPv6Address" self.(local_ip6) then
    let! a := getitem flow "destinationIPv6Address" in Ret (Some a)
  else Ret None.

(** [x | (c & mask)] and [x | ((c & 0xFF) << 8)], lines 161-169. *)
Definition merge_syn (x c : pyval) : result pyval :=
  let! m := py_and c (VInt 65280) in py_or x m.

Definition merge_union (x c : pyval) : result pyval :=
  let! m := py_and c (VInt 255) in
  let! sh := py_shl m (VInt 8) in
  py_or x sh.

(** Lines 160-175. *)
Definition export (a : pyval) (flow : gmap string pyval) : result FlowRecord :=
  let! fif := getitem flow "initialTCPFlags" in
  let! ls := getitem flow "lastSynTCPFlags" in
  let! ch := getitem flow "qofTcpCharacteristics" in
  let! fsf := merge_syn ls ch in
  let! un := getitem flow "unionTCPFlags" in
  let! ch' := getitem flow "qofTcpCharacteristics" in
  let! fuf := merge_union un ch' in
  let! fir := getitem flow "reverseInitialTCPFlags" in
  let! rls := getitem flow "reverseLastSynTCPFlags" in
  let! rch := getitem flow "reverseQofTcpCharacteristics" in
  let! fsr := merge_syn rls rch in
  let! run := getitem flow "reverseUnionTCPFlags" in
  let! rch' := getitem flow "reverseQofTcpCharacteristics" in
  let! fur := merge_union run rch' in
  let! sport := getitem flow "sourceTransportPort" in
  let! oct := getitem flow "reverseTransportOctetDeltaCount" in
  Ret {| ip := a; port := sport; octets := oct;
         fif := fif; fsf := fsf; fuf := fuf;
         fir := fir; fsr := fsr; fur := fur |}.

(** Lines 136-175.  Every exception raised inside the [try] is turned into
    [return None] by the bare [except]. *)
Definition tupleize_flow (self : spider) (flow : gmap string pyval)
  : result (option FlowRecord) :=
  match short_circuit flow with
  | Ret true => Ret None
  | Raise _ => Ret None
  | OutOfFuel => OutOfFuel
  | Ret false =>
      let! sel := select_ip self flow in
      match sel with
      | None => Ret None
      | Some a => let! r := export a flow in Ret (Some r)
      end
  end.

(** [SpiderRecord = namedtuple("SpiderRecord", ["ip", "host", "port",
    "ecnstate", "connstate", "httpstatus"])] and the record built on lines
    62-64. *)
Record SpiderRecord : Type := {
  res_ip : pyval;
  res_host : pyval;
  res_port : pyval;
  ecnstate : pyval;
  connstate : pyval;
  httpstatus : pyval
}.

Record MergedRecord : Type := {
  m_ip : pyval;
  m_host : pyval;
  m_ecnstate : pyval;
  m_connstate : pyval;
  m_httpstatus : pyval;
  m_octets : pyval;
  m_fif : pyval;
  m_fsf : pyval;
  m_fuf : pyval;
  m_fir : pyval;
  m_fsr : pyval;
  m_fur : pyval
}.

(** Modelled from the spec: [qofspider], whose scheduler calls [merge], is
    not among the sources.  By the plugin contract [merge] maps "(Flow Record
    or placeholder, Active Record) to a Merged Record", and the placeholder is
    "a sentinel standing in for no matching Flow Record was captured, distinct
    from an all-zero Flow Record": an object that is no [FlowRecord] and has
    none of its attributes. *)
Inductive flow_arg : Type :=
| Unobserved
| Observed (f : FlowRecord).

(** [flow.<field>]. *)
Definition attr (flow : flow_arg) (field : FlowRecord -> pyval) : result pyval :=
  match flow with
  | Unobserved => Raise AttributeError
  | Observed f => Ret (field f)
  end.

(** Lines 177-181: the arguments of [MergedRecord] are evaluated, then the
    record is handed to [self.result_sink], here the list of what the sink
    has received.  There is no branch for a missing flow; an exception
    raised by an argument leaves the call before the sink is reached. *)
Definition merge (sink : list MergedRecord) (flow : flow_arg) (res : SpiderRecord)
  : result (list MergedRecord) :=
  let! o := attr flow octets in
  let! f1 := attr flow fif in
  let! f2 := attr flow fsf in
  let! f3 := attr flow fuf in
  let! f4 := attr flow fir in
  let! f5 := attr flow fsr in
  let! f6 := attr flow fur in
  Ret (sink ++ [ {| m_ip := res.(res_ip); m_host := res.(res_host);
                    m_ecnstate := res.(ecnstate); m_connstate := res.(connstate);
                    m_httpstatus := res.(httpstatus);
                    m_octets := o; m_fif := f1; m_fsf := f2; m_fuf := f3;
                    m_fir := f4; m_fsr := f5; m_fur := f6 |} ]).

End Ecn.

(** ** The resolver client: [take] and [ResolverClient._fetch_result] *)

Module Resolver.

Section Take.

Context {A : Type}.

(** A suspended [take] generator: the position of the [range] iterator
    and the iterator [it] over the iterable, given by what it has still
    to deliver. *)
Record take_gen : Type := {
  index : Z;
  count : Z;
  it : list A
}.

(** Calling [take(count, iterable)] makes a generator that has not yet
    run. *)
Definition take (count : Z) (iterable : list A) : take_gen :=
  {| index := 0; count := count; it := iterable |}.

(** What resuming a generator gives. *)
Inductive resumed : Type :=
| Yield (a : A) (g : take_gen)
| Stop
| Fail (e : exn).

(** One [next()] on the generator, lines 33-36.  [next(it)] on an
    exhausted iterator raises [StopIteration] inside the generator body,
    which the interpreter turns into [RuntimeError] (PEP 479, the
    behaviour of every Python since 3.7). *)
Definition resume (g : take_gen) : resumed :=
  if g.(index) <? g.(count) then
    if g.(count) <=? g.(index) then Stop
    else
      match g.(it) with
      | [] => Fail RuntimeError
      | x :: rest =>
          Yield x {| index := g.(index) + 1; count := g.(count); it := rest |}
      end
  else Stop.

(** Consuming the generator, as [list(take(count, iterable))] on line 123
    does: the elements yielded, and how the iteration ended. *)
Fixpoint consume (fuel : nat) (g : take_gen) : list A * result unit :=
  match fuel with
  | O => ([], OutOfFuel)
  | S fuel' =>
      match resume g with
      | Yield a g' =>
          let '(l, r) := consume fuel' g' in (a :: l, r)
      | Stop => ([], Ret tt)
      | Fail e => ([], Raise e)
      end
  end.

(** [list(g)]. *)
Definition py_list (fuel : nat) (g : take_gen) : result (list A) :=
  match consume fuel g with
  | (l, Ret _) => Ret l
  | (_, Raise e) => Raise e
  | (_, OutOfFuel) => OutOfFuel
  end.

End Take.

Arguments take_gen : clear implicits.
Arguments resumed : clear implicits.

(** What [self.client.result_for(token)] gives, by the [isinstance] tests
    of lines 64-76. *)
Inductive poll (row : Type) : Type :=
| PException
| PReceipt
| PResult (addrs : list row)
| POther.
Arguments PException {row}.
Arguments PReceipt {row}.
Arguments PResult {row} addrs.
Arguments POther {row}.

(** A call into the mPlane client returns or raises. *)
Inductive called (A : Type) : Type :=
| Returns (a : A)
| Raises (e : exn).
Arguments Returns {A} a.
Arguments Raises {A} e.

(** What the loop did, in order; the times are readings of the clock. *)
Inductive event : Type :=
| EvRefresh (last_updated now : Q)   (* [retrieve_capabilities] was called *)
| EvPoll (now : Q)                   (* [result_for] was called *)
| EvAnswer                           (* the poll gave an Exception or a Result *)
| EvRaised                           (* the poll raised *)
| EvSleep (seconds : Q).             (* [time.sleep] was called *)

Section FetchResult.

(** The world outside the client: the mPlane component and the clock. *)
Context {world row token : Type}.

Variable time : world -> Q.                                (* [time.time()] *)
Variable sleep : Q -> world -> world.                      (* [time.sleep(s)] *)
Variable retrieve_capabilities : world -> called unit * world.
Variable result_for : token -> world -> called (poll row) * world.
Variable forget : token -> world -> world.

(** The client object: [self.last_updated], the world it talks to, and
    the record of what it did. *)
Record client : Type := {
  last_updated : Q;
  w : world;
  trace : list event
}.

Definition log (c : client) (e : event) : client :=
  {| last_updated := c.(last_updated); w := c.(w); trace := c.(trace) ++ [e] |}.

Definition with_world (c : client) (w' : world) : client :=
  {| last_updated := c.(last_updated); w := w'; trace := c.(trace) |}.

(** Lines 53-60: the capability refresh; an exception leaves
    [last_updated] as it was. *)
Definition refresh (c : client) : client :=
  if Qlt_le_dec (c.(last_updated) + 5) (time c.(w)) then
    let c1 := log c (EvRefresh c.(last_updated) (time c.(w))) in
    match retrieve_capabilities c1.(w) with
    | (Returns _, w') =>
        {| last_updated := time w'; w := w'; trace := c1.(trace) |}
    | (Raises _, w') => with_world c1 w'
    end
  else c.

(** What one pass through the loop body, lines 52-76, does. *)
Inductive pass : Type :=
| Again (c : client)
| Done (r : result (option (list row))) (c : client).

Definition check (tok : token) (c : client) : pass :=
  let c1 := refresh c in
  let c2 := log c1 (EvPoll (time c1.(w))) in
  match result_for tok c2.(w) with
  | (Returns PException, w') =>
      Done (Ret None) (log (with_world c2 (forget tok w')) EvAnswer)
  | (Returns PReceipt, w') => Again (with_world c2 w')
  | (Returns (PResult addrs), w') =>
      Done (Ret (Some addrs)) (log (with_world c2 (forget tok w')) EvAnswer)
  | (Returns POther, w') => Again (with_world c2 w')
  | (Raises e, w') => Done (Raise e) (log (with_world c2 w') EvRaised)
  end.

(** Lines 51-81, the [while] loop run for at most [fuel] tests of its
    condition, from [time_spent]. *)
Fixpoint poll_loop (fuel : nat) (tok : token) (request_timeout time_spent : Z)
  (c : client) : result (option (list row)) * client :=
  match fuel with
  | O => (OutOfFuel, c)
  | S fuel' =>
      if time_spent <? request_timeout then
        match check tok c with
        | Done r c' => (r, c')
        | Again c' =>
            let c'' := log (with_world c' (sleep 5 c'.(w))) (EvSleep 5) in
            poll_loop fuel' tok request_timeout (time_spent + 5) c''
        end
      else (Raise TimeoutException, c)
  end.

(** Lines 49-81. *)
Definition _fetch_result (fuel : nat) (tok : token) (request_timeout : Z)
  (c : client) : result (option (list row)) * client :=
  poll_loop fuel tok request_timeout 0 c.

End FetchResult.

Arguments client : clear implicits.
Arguments pass : clear implicits.

(** The times at which [result_for] was called. *)
Fixpoint poll_times (tr : list event) : list Q :=
  match tr with
  | [] => []
  | EvPoll t :: rest => t :: poll_times rest
  | _ :: rest => poll_times rest
  end.

(** Successive times are at least [d] apart. *)
Fixpoint spaced (d : Q) (ts : list Q) : Prop :=
  match ts with
  | [] => True
  | t1 :: rest =>
      match rest with
      | [] => True
      | t2 :: _ => (t1 + d <= t2)%Q /\ spaced d rest
      end
  end.

(** A refresh was made more than five seconds after the last update. *)
Definition guarded (e : event) : Prop :=
  match e with
  | EvRefresh lu now => (lu + 5 < now)%Q
  | _ => True
  end.

(** The event is not the end of a poll that answered or raised. *)
Definition pending (e : event) : Prop :=
  match e with
  | EvAnswer | EvRaised => False
  | _ => True
  end.

(** The number of times the loop condition [time_spent < request_timeout]
    holds, counting [time_spent] up from 0 in steps of 5. *)
Definition passes (request_timeout : Z) : nat :=
  Z.to_nat ((request_timeout + 4) / 5).

(** The same, counting up from [time_spent]. *)
Definition passes_from (request_timeout time_spent : Z) : nat :=
  Z.to_nat ((request_timeout - time_spent + 4) / 5).

(** What holds of a client each time the loop condition is tested: the
    polls made so far are five seconds apart, every refresh was guarded,
    no poll has answered or raised, and the last poll is at least five
    seconds old by the clock [time]. *)
Record settled {world : Type} (time : world -> Q) (c : client world) : Prop := {
  settled_spaced : spaced 5 (poll_times c.(trace));
  settled_guarded : Forall guarded c.(trace);
  settled_pending : Forall pending c.(trace);
  settled_last : forall t, last (poll_times c.(trace)) = Some t ->
                           (t + 5 <= time c.(w))%Q
}.

End Resolver.

(** ** [TFOSpider.post_connect] *)

Module PostConnect.

Section WithSockets.

Context {world sock : Type}.

Variable api : Connect.socket_api world sock.

(** [conn.client.shutdown(socket.SHUT_RDWR)]. *)
Variable sock_shutdown : sock -> Connect.io world unit.

(** [try: m  except: pass]: whatever [m] raises is dropped; only its effect
    on the world remains. *)
Definition attempt (m : Connect.io world unit) (w : world) : world := (m w).2.

(** Lines 203-206: the arguments of [SpiderRecord] are evaluated from left
    to right; both branches read the same fields of the job. *)
Definition active_record (job : list pyval) (conn : Connect.Connection sock)
  (config : Z) : result Merge.SpiderRecord :=
  let ok := conn.(Connect.state) =? Connect.CONN_OK in
  let! j0 := index job 0 in
  let! j1 := index job 1 in
  let! j2 := index job 2 in
  let! j3 := index job 3 in
  Ret {| Merge.ip := j0; Merge.rport := j1;
         Merge.port := VInt conn.(Connect.port); Merge.host := j2;
         Merge.tfostate := VInt config; Merge.connstate := VBool ok;
         Merge.rank := j3 |}.

(** Lines 202-218. *)
Definition post_connect (job : list pyval) (conn : Connect.Connection sock)
  (config : Z) : Connect.io world Merge.SpiderRecord :=
  fun w =>
    match active_record job conn config with
    | Ret rec =>
        let w1 := attempt (sock_shutdown conn.(Connect.client)) w in
        let w2 := attempt (api.(Connect.sock_close) conn.(Connect.client)) w1 in
        (Ret rec, w2)
    | Raise e => (Raise e, w)
    | OutOfFuel => (OutOfFuel, w)
    end.

End WithSockets.

End PostConnect.

(** ** [EcnSpider2.qof_config] *)

Module EcnConfig.

(** Lines 108-134: the information elements asked of the flow meter. *)
Definition template : list string :=
  [ "flowStartMilliseconds"; "flowEndMilliseconds";
    "octetDeltaCount"; "reverseOctetDeltaCount";
    "packetDeltaCount"; "reversePacketDeltaCount";
    "transportOctetDeltaCount"; "reverseTransportOctetDeltaCount";
    "transportPacketDeltaCount"; "reverseTransportPacketDeltaCount";
    "sourceIPv4Address"; "destinationIPv4Address";
    "sourceIPv6Address"; "destinationIPv6Address";
    "sourceTransportPort"; "destinationTransportPort";
    "protocolIdentifier";
    "initialTCPFlags"; "reverseInitialTCPFlags";
    "unionTCPFlags"; "reverseUnionTCPFlags";
    "lastSynTcpFlags"; "reverseLastSynTcpFlags";
    "qofTcpCharacteristics"; "reverseQofTcpCharacteristics" ].

End EcnConfig.

(** ** The resolver clients' [request] *)

Module Request.

Import Resolver.

(** The third argument of [invoke_capability]: [{"btdhtresolver.count":
    count}] or [{"destination.url": urls}]. *)
Inductive params (url : Type) : Type :=
| Count (n : Z)
| Urls (l : list url).
Arguments Count {url} n.
Arguments Urls {url} l.

(** How a [request] ends: with the list of (address, port) pairs, with an
    exception of one of the classes of [exn], with the [ValueError] of lines
    102 and 131, or without answer within the allowed passes. *)
Inductive outcome : Type :=
| Gives (l : list (pyval * pyval))
| Throws (e : exn)
| ThrowsValueError
| Unfinished.

(** The list comprehension of lines 104 and 133 over the rows: each row is
    a dictionary, read at ['destination.' + ipv] and then at
    ['destination.port']. *)
Fixpoint pairs (ipv : string) (rows : list (gmap string pyval))
  : result (list (pyval * pyval)) :=
  match rows with
  | [] => Ret []
  | row :: rest =>
      let! a := getitem row ("destination." ++ ipv)%string in
      let! p := getitem row "destination.port" in
      let! l := pairs ipv rest in
      Ret ((a, p) :: l)
  end.

(** The same comprehension over what [_fetch_result] returned: [None] is
    not iterable. *)
Definition comprehension (ipv : string)
  (fetched : result (option (list (gmap string pyval)))) : outcome :=
  match fetched with
  | Ret (Some rows) =>
      match pairs ipv rows with
      | Ret l => Gives l
      | Raise e => Throws e
      | OutOfFuel => Unfinished
      end
  | Ret None => Throws TypeError
  | Raise e => Throws e
  | OutOfFuel => Unfinished
  end.

Section WithClient.

Context {world token url : Type}.

Variable time : world -> Q.
Variable sleep : Q -> world -> world.
Variable retrieve_capabilities : world -> called unit * world.
Variable result_for : token -> world -> called (poll (gmap string pyval)) * world.
Variable forget : token -> world -> world.

(** [self.client.invoke_capability(label, when, params).get_token()]: the
    token of the specification that was sent, which may be [None]. *)
Variable invoke_capability :
  string -> string -> params url -> world -> called (option token) * world.

(** Lines 101-104 and 130-133, after the token was assigned. *)
Definition fetch_pairs (fuel : nat) (ipv : string) (request_timeout : Z)
  (tok : option token) (c : client world) : outcome * client world :=
  match tok with
  | None => (ThrowsValueError, c)
  | Some t =>
      let '(r, c') :=
        _fetch_result time sleep retrieve_capabilities result_for forget
          fuel t request_timeout c in
      (comprehension ipv r, c')
  end.

(** [BtDhtResolverClient.request], lines 90-104.  The handler of line 97
    raises what it caught again, so every exception of the [try] leaves the
    call. *)
Definition btdht_request (fuel : nat) (count : Z) (ipv when : string)
  (request_timeout : Z) (c : client world) : outcome * client world :=
  let label := ("btdhtresolver-" ++ ipv)%string in
  match invoke_capability label when (Count count) c.(w) with
  | (Raises e, w') => (Throws e, with_world c w')
  | (Returns tok, w') => fetch_pairs fuel ipv request_timeout tok (with_world c w')
  end.

(** A [WebResolverClient]: the client and [self.queued]. *)
Record web_client : Type := {
  base : client world;
  queued : list url
}.

(** [WebResolverClient.extend], lines 114-116. *)
Definition extend (wc : web_client) (urls : list url) : web_client :=
  {| base := wc.(base); queued := wc.(queued) ++ urls |}.

(** [WebResolverClient.request], lines 118-133.  [take] iterates over
    [self.queued] without removing anything from it. *)
Definition web_request (fuel : nat) (count : Z) (ipv when : string)
  (request_timeout : Z) (wc : web_client) : outcome * web_client :=
  let label := ("btdhtresolver-" ++ ipv)%string in
  match py_list fuel (take count wc.(queued)) with
  | Raise e => (Throws e, wc)
  | OutOfFuel => (Unfinished, wc)
  | Ret urls =>
      match invoke_capability label when (Urls urls) wc.(base).(w) with
      | (Raises e, w') =>
          (Throws e, {| base := with_world wc.(base) w'; queued := wc.(queued) |})
      | (Returns tok, w') =>
          let '(o, c') :=
            fetch_pairs fuel ipv request_timeout tok (with_world wc.(base) w') in
          (o, {| base := c'; queued := wc.(queued) |})
      end
  end.

End WithClient.

Arguments web_client : clear implicits.

End Request.

(** ** [run.py]: the job feeder and the output loop *)

Module Run.

(** Modelled from the spec: [Spider.add_job] and [Spider.shutdown] are
    methods of [pathspider.base.Spider], which is not among the sources.
    Jobs enter the scheduler in the order in which they are added, and
    [shutdown] is the feeder's end-of-input signal; so a spider is, to the
    feeder, the list of jobs added so far and whether [shutdown] was
    called. *)
Record spider : Type := {
  jobs : list (list pyval);
  shut_down : bool
}.

Definition add_job (sp : spider) (job : list pyval) : spider :=
  {| jobs := sp.(jobs) ++ [job]; shut_down := sp.(shut_down) |}.

Definition shutdown (sp : spider) : spider :=
  {| jobs := sp.(jobs); shut_down := true |}.

(** How the feeder ends. *)
Inductive fed : Type :=
| Fed
| FedIndexError     (* [row[1]] on a row with fewer than two fields *)
| FedValueError.    (* [int(row[1])] on a field that is no integer *)

Section Feeder.

(** [int(s)] on a string: the integer, or nothing when it raises
    [ValueError]. *)
Variable py_int : string -> option Z.

(** Lines 26: [row[1] = int(row[1])]; the other fields stay strings. *)
Definition convert (row : list string) : fed + list pyval :=
  match row with
  | f0 :: f1 :: rest =>
      match py_int f1 with
      | Some n => inr (VStr f0 :: VInt n :: map VStr rest)
      | None => inl FedValueError
      end
  | _ => inl FedIndexError
  end.

(** Lines 24-28, the [for] loop over the rows of the reader. *)
Fixpoint feed (rows : list (list string)) (sp : spider) : fed * spider :=
  match rows with
  | [] => (Fed, sp)
  | row :: rest =>
      match convert row with
      | inr job => feed rest (add_job sp job)
      | inl e => (e, sp)
      end
  end.

(** Lines 20-32: [shutdown] is called after the loop, so only when the
    loop ended without exception. *)
Definition job_feeder (rows : list (list string)) (sp : spider) : fed * spider :=
  match feed rows sp with
  | (Fed, sp') => (Fed, shutdown sp')
  | r => r
  end.

End Feeder.

(** Modelled from the spec: [SHUTDOWN_SENTINEL] is imported from
    [pathspider.base], which is not among the sources; it is the
    "distinguished terminal marker" that "signals the writer loop to stop",
    so what the out queue holds is either that marker or a merged record. *)
Inductive item : Type :=
| SHUTDOWN_SENTINEL
| Result (d : gmap string pyval).

Section Writer.

(** [json.dumps]. *)
Variable dumps : gmap string pyval -> string.

Definition newline : string := String (Ascii.ascii_of_nat 10) EmptyString.

(** Lines 87-92, over the items that reach the queue, in order: the lines
    written, whether the loop was left, and the items not taken.  When the
    queue stays empty [get] does not return. *)
Fixpoint write_results (queue : list item) : list string * bool * list item :=
  match queue with
  | [] => ([], false, [])
  | SHUTDOWN_SENTINEL :: rest => ([], true, rest)
  | Result d :: rest =>
      let '(lines, ended, remaining) := write_results rest in
      ((dumps d ++ newline)%string :: lines, ended, remaining)
  end.

End Writer.

End Run.

(** ** A world that keeps a record of the calls made to it *)

Module Recorder.

Import Resolver.

(** What the world saw of the resolver client, in order. *)
Inductive call (row : Type) : Type :=
| CallRefresh (began : Q) (ok : bool) (ended : Q)  (* [retrieve_capabilities] *)
| CallPoll (began : Q) (answer : called (poll row)) (* [result_for] *)
| CallForget                                        (* [forget] *)
| CallSleep (seconds : Q).                          (* [time.sleep] *)
Arguments CallRefresh {row} began ok ended.
Arguments CallPoll {row} began answer.
Arguments CallForget {row}.
Arguments CallSleep {row} seconds.

Section Recording.

Context {world row token : Type}.

Variable time : world -> Q.
Variable sleep : Q -> world -> world.
Variable retrieve_capabilities : world -> called unit * world.
Variable result_for : token -> world -> called (poll row) * world.
Variable forget : token -> world -> world.

(** The same world and the same operations, each of which also writes down
    that it was called. *)
Definition recording : Type := world * list (call row).

Definition rtime (rw : recording) : Q := time rw.1.

Definition rsleep (d : Q) (rw : recording) : recording :=
  (sleep d rw.1, rw.2 ++ [CallSleep d]).

Definition returned {A} (r : called A) : bool :=
  match r with
  | Returns _ => true
  | Raises _ => false
  end.

Definition rretrieve_capabilities (rw : recording) : called unit * recording :=
  let '(r, w') := retrieve_capabilities rw.1 in
  (r, (w', rw.2 ++ [CallRefresh (time rw.1) (returned r) (time w')])).

Definition rresult_for (tok : token) (rw : recording)
  : called (poll row) * recording :=
  let '(r, w') := result_for tok rw.1 in
  (r, (w', rw.2 ++ [CallPoll (time rw.1) r])).

Definition rforget (tok : token) (rw : recording) : recording :=
  (forget tok rw.1, rw.2 ++ [CallForget]).

End Recording.

Section Reading.

Context {row : Type}.

(** The answers that the polls got, in order. *)
Fixpoint answers (calls : list (call row)) : list (called (poll row)) :=
  match calls with
  | [] => []
  | CallPoll _ a :: rest => a :: answers rest
  | _ :: rest => answers rest
  end.

(** The times at which the polls were made. *)
Fixpoint poll_began (calls : list (call row)) : list Q :=
  match calls with
  | [] => []
  | CallPoll t _ :: rest => t :: poll_began rest
  | _ :: rest => poll_began rest
  end.

(** The time of the last refresh that succeeded, starting from [lu]. *)
Fixpoint updated (lu : Q) (calls : list (call row)) : Q :=
  match calls with
  | [] => lu
  | CallRefresh _ ok t' :: rest => updated (if ok then t' else lu) rest
  | _ :: rest => updated lu rest
  end.

(** Every refresh began more than five seconds after the last one that
    succeeded ended (or after [lu], before the first). *)
Fixpoint refreshes_guarded (lu : Q) (calls : list (call row)) : Prop :=
  match calls with
  | [] => True
  | CallRefresh t ok t' :: rest =>
      (lu + 5 < t)%Q /\ refreshes_guarded (if ok then t' else lu) rest
  | _ :: rest => refreshes_guarded lu rest
  end.

(** A receipt, or something that is neither Exception nor Result. *)
Definition unanswered (a : called (poll row)) : Prop :=
  match a with
  | Returns PReceipt | Returns POther => True
  | _ => False
  end.

(** What [_fetch_result] does with an answer that ends the loop. *)
Definition outcome_of (a : called (poll row)) : result (option (list row)) :=
  match a with
  | Returns PException => Ret None
  | Returns (PResult addrs) => Ret (Some addrs)
  | Raises e => Raise e
  | Returns PReceipt | Returns POther => Raise TimeoutException
  end.

(** How a call that made the polls [given] ended in [out], when [n] passes
    fit into the timeout: every poll but the last was unanswered, and
    either all [n] polls were made without answer and the call raised
    [TimeoutException], or fewer than [n] went unanswered and the next one
    decided the outcome. *)
Definition ended (n : nat) (out : result (option (list row)))
  (given : list (called (poll row))) : Prop :=
  exists before final,
    given = before ++ final
    /\ Forall unanswered before
    /\ ((final = [] /\ length before = n /\ out = Raise TimeoutException)
        \/ (exists a, final = [a] /\ ~ unanswered a /\ out = outcome_of a
                      /\ (length before < n)%nat)).

End Reading.

(** What holds of a client in a recording world each time the loop
    condition is tested: the polls the world saw are five seconds apart and
    unanswered, the last one is at least five seconds old, the refreshes
    were guarded from [lu0] on, and [last_updated] is the time of the last
    refresh that succeeded. *)
Record steady {world row : Type} (time : world -> Q) (lu0 : Q)
  (c : client (world * list (call row))) : Prop := {
  steady_spaced : spaced 5 (poll_began c.(w).2);
  steady_last : forall t, last (poll_began c.(w).2) = Some t ->
                          (t + 5 <= time c.(w).1)%Q;
  steady_unanswered : Forall unanswered (answers c.(w).2);
  steady_guarded : refreshes_guarded lu0 c.(w).2;
  steady_updated : c.(last_updated) = updated lu0 c.(w).2
}.

(** The client without the record of the world. *)
Definition strip {world row : Type} (c : client (world * list (call row)))
  : client world :=
  {| last_updated := c.(last_updated); w := c.(w).1; trace := c.(trace) |}.

End Recorder.

(** ** Concrete inputs *)

Module Inputs.

(** Inputs of the option parser.  Each is a segment with a
    20-byte fixed header, source port 40000, and no payload. *)

(** Three NOPs, then kind 34 as the last byte of the options region: the
    option's length byte is cut off. *)
Definition truncated_fastopen : tcp_hdr := segment [1; 1; 1; 34] [] 40000 7 0.

(** Kind 253 with the magic and a length byte of 0. *)
Definition zero_length_253 : tcp_hdr := segment [253; 0; 249; 137] [] 40000 7 0.

(** Kind 254 as the first option, without the magic. *)
Definition plain_254 : tcp_hdr := segment [254; 4; 0; 0] [] 40000 7 0.

(** Two NOPs, then the experimental Fast-Open option with the magic and a
    six-byte cookie, under kind 254 and under kind 253. *)
Definition padded_254_cookie : tcp_hdr :=
  segment [1; 1; 254; 10; 249; 137; 1; 2; 3; 4; 5; 6] [] 40000 7 0.
Definition padded_253_cookie : tcp_hdr :=
  segment [1; 1; 253; 10; 249; 137; 1; 2; 3; 4; 5; 6] [] 40000 7 0.

(** Maximum segment size (kind 2, length 4), then the registered Fast-Open
    option with a four-byte cookie, then two NOPs. *)
Definition mss_then_cookie : tcp_hdr :=
  segment [2; 4; 5; 180; 34; 6; 1; 2; 3; 4; 1; 1] [] 40000 7 0.

(** The Fast-Open option with a four-byte cookie as the first option. *)
Definition cookie_first : tcp_hdr :=
  segment [34; 6; 1; 2; 3; 4; 1; 1] [] 40000 7 0.

(** Inputs of the Fast-Open state machine.  The local port is 40000, the
    remote port 80. *)

(** A flow context as [tfosetup] leaves it on the first packet. *)
Definition fresh_ctx : gmap string pyval :=
  (TfoChain.tfosetup {[ "sp" := VInt 40000 ]}).1.

(** The context after a cookie-bearing outgoing segment with sequence
    number [S] and [L] bytes of payload was seen. *)
Definition recorded (S L : Z) : gmap string pyval :=
  <["tfoworking" := VInt 1]>
    (<["tfo_len" := VInt L]> (<["tfo_seq" := VInt S]> fresh_ctx)).

(** An outgoing SYN with a four-byte cookie and four bytes of payload. *)
Definition syn_with_cookie (S : Z) : tcp_hdr :=
  segment [34; 6; 1; 2; 3; 4; 1; 1] [71; 69; 84; 32] 40000 S 0.

(** An incoming segment without options or payload that acknowledges [A]. *)
Definition incoming_ack (A : Z) : tcp_hdr := segment [] [] 80 5000 A.

(** An outgoing segment without options that carries four bytes of payload
    at sequence number [S]. *)
Definition outgoing_data (S : Z) : tcp_hdr :=
  segment [] [71; 69; 84; 32] 40000 S 0.

(** Jobs as [job_feeder] builds them from a row of the job file: the row's
    fields, with the second converted to an integer.  Host and rank are
    optional fields of a job. *)
Definition job_without_host : list pyval := [VStr "203.0.113.10"; VInt 80].
Definition job_with_host : list pyval :=
  [VStr "203.0.113.10"; VInt 80; VStr "example.com"; VInt 1].

(** A process that has no file descriptor left: [socket.socket] raises
    [OSError]; the other calls would succeed. *)
Definition no_descriptors : Connect.socket_api unit unit :=
  {| Connect.socket_new := fun _ w => (Raise OSError, w);
     Connect.settimeout := fun _ _ w => (Ret tt, w);
     Connect.sock_connect := fun _ _ _ w => (Ret tt, w);
     Connect.sendto_fastopen := fun _ _ _ _ w => (Ret tt, w);
     Connect.sock_close := fun _ w => (Ret tt, w);
     Connect.getsockname_port := fun _ w => (Ret 40000, w) |}.

(** A remote host that refuses the connection: [connect] and [sendto] raise
    [OSError]; sockets are numbered by the world. *)
Definition refused : Connect.socket_api nat nat :=
  {| Connect.socket_new := fun _ w => (Ret w, S w);
     Connect.settimeout := fun _ _ w => (Ret tt, w);
     Connect.sock_connect := fun _ _ _ w => (Raise OSError, w);
     Connect.sendto_fastopen := fun _ _ _ _ w => (Raise OSError, w);
     Connect.sock_close := fun _ w => (Ret tt, w);
     Connect.getsockname_port := fun s w => (Ret (40000 + Z.of_nat s), w) |}.

(** An active record of a failed connection attempt. *)
Definition failed_attempt : Merge.SpiderRecord :=
  {| Merge.ip := VStr "203.0.113.10"; Merge.rport := VInt 80;
     Merge.port := VInt 40000; Merge.host := VStr "example.com";
     Merge.tfostate := VInt 1; Merge.connstate := VBool false;
     Merge.rank := VInt 1 |}.

(** The spider of a host with addresses 192.0.2.1 and 2001:db8::1, and the
    flow of one HTTP connection it opened: TCP, destination port 80,
    initial flags SYN only, source address the local IPv4 address. *)
Definition this_spider : Ecn.spider :=
  {| Ecn.local_ip4 := VStr "192.0.2.1"; Ecn.local_ip6 := VStr "2001:db8::1" |}.

Definition http_flow : gmap string pyval :=
  list_to_map
    [ ("protocolIdentifier", VInt 6);
      ("destinationTransportPort", VInt 80);
      ("sourceTransportPort", VInt 40000);
      ("sourceIPv4Address", VStr "192.0.2.1");
      ("destinationIPv4Address", VStr "203.0.113.10");
      ("initialTCPFlags", VInt 2);
      ("reverseInitialTCPFlags", VInt 18);
      ("unionTCPFlags", VInt 27);
      ("reverseUnionTCPFlags", VInt 27);
      ("lastSynTCPFlags", VInt 2);
      ("reverseLastSynTCPFlags", VInt 18);
      ("qofTcpCharacteristics", VInt 0);
      ("reverseQofTcpCharacteristics", VInt 0);
      ("reverseTransportOctetDeltaCount", VInt 512) ].

(** A world for the resolver client that is nothing but the clock: the
    calls into the mPlane client take no time, the capabilities can always
    be retrieved, and every poll gives a receipt. *)
Definition clock_time (w : Q) : Q := w.
Definition clock_sleep (d w : Q) : Q := (w + d)%Q.
Definition capabilities_ok (w : Q) : Resolver.called unit * Q :=
  (Resolver.Returns tt, w).
Definition always_receipt (tok : unit) (w : Q)
  : Resolver.called (Resolver.poll Z) * Q :=
  (Resolver.Returns Resolver.PReceipt, w).
Definition forget_nothing (tok : unit) (w : Q) : Q := w.

(** A client just constructed ([last_updated = 0]) when the clock reads
    100 seconds. *)
Definition new_client : Resolver.client Q :=
  {| Resolver.last_updated := 0%Q; Resolver.w := 100%Q; Resolver.trace := [] |}.

End Inputs.

(** ** Further concrete inputs *)

Module Scenarios.

(** A resolver that accepts every invocation under the same token and
    answers every poll with an mPlane Exception; the world is the clock. *)
Definition accept_all (label when : string) (ps : Request.params string) (w : Q)
  : Resolver.called (option unit) * Q :=
  (Resolver.Returns (Some tt), w).

Definition always_exception (tok : unit) (w : Q)
  : Resolver.called (Resolver.poll (gmap string pyval)) * Q :=
  (Resolver.Returns Resolver.PException, w).

(** A web resolver client with one queued url. *)
Definition one_url : Request.web_client Q string :=
  {| Request.base := Inputs.new_client; Request.queued := ["http://example.com/"] |}.

(** [int] on strings of decimal digits, as far as the examples need it. *)
Definition digits_only (s : string) : option Z :=
  if bool_decide (s = "80") then Some 80
  else if bool_decide (s = "443") then Some 443
  else None.

(** A job file of two rows, and one with a blank line in the middle. *)
Definition two_rows : list (list string) :=
  [ ["203.0.113.10"; "80"; "example.com"; "1"];
    ["203.0.113.11"; "443"; "example.org"; "2"] ].

Definition blank_line_in_the_middle : list (list string) :=
  [ ["203.0.113.10"; "80"; "example.com"; "1"];
    [];
    ["203.0.113.11"; "443"; "example.org"; "2"] ].

Definition idle_spider : Run.spider := {| Run.jobs := []; Run.shut_down := false |}.

(** An active record of [EcnSpider2] for a connection that failed. *)
Definition ecn_failed_attempt : Ecn.SpiderRecord :=
  {| Ecn.res_ip := VStr "203.0.113.10"; Ecn.res_host := VStr "example.com";
     Ecn.res_port := VInt 0; Ecn.ecnstate := VInt 1;
     Ecn.connstate := VBool false; Ecn.httpstatus := VInt 0 |}.

End Scenarios.

(** * Properties *)

(** ** Sequences *)

Module PyFacts.

Section Index.

Context {A : Type}.

(** Reading inside a sequence gives the element stored there. *)
Lemma index_in_range (b : list A) (i : Z) (x : A) :
  0 <= i -> b !! Z.to_nat i = Some x -> index b i = Ret x.
Proof.
  intros Hi Hx. unfold index.
  assert (Hlt : (Z.to_nat i < length b)%nat) by (eapply lookup_lt_Some; eauto).
  destruct (i <? 0) eqn:Hneg; [lia|].
  replace ((0 <=? i) && (i <? Z.of_nat (length b))) with true
    by (symmetry; apply andb_true_iff; split; lia).
  now rewrite Hx.
Qed.

(** Reading at or beyond the end of a sequence raises [IndexError]. *)
Lemma index_past_end (b : list A) (i : Z) :
  Z.of_nat (length b) <= i -> index b i = Raise IndexError.
Proof.
  intros Hi. unfold index.
  destruct (i <? 0) eqn:Hneg; [lia|].
  replace ((0 <=? i) && (i <? Z.of_nat (length b))) with false; [done|].
  symmetry. apply andb_false_iff. right. lia.
Qed.

End Index.

End PyFacts.

(** ** The option parser *)

Module TfoCookieFacts.

Import TfoCookie Inputs PyFacts.

(** A state that the loop body maps to itself is never left. *)
Lemma loop_stuck (s : state) :
  body s = Continue s -> forall fuel, loop fuel s = OutOfFuel.
Proof.
  intros Hs fuel. induction fuel as [|fuel IH]; [done|].
  simpl. rewrite Hs. unfold Continue. exact IH.
Qed.

(** More fuel does not change an answer already reached. *)
Lemma loop_more_fuel (fuel : nat) :
  forall s r extra, loop fuel s = r -> r <> OutOfFuel -> loop (fuel + extra) s = r.
Proof.
  induction fuel as [|fuel IH]; intros s r extra Hr Hne.
  - simpl in Hr. congruence.
  - simpl in *. destruct (body s) as [[s'|c]|e|]; auto.
Qed.

(** §8 of the specification: [NOP, NOP, End-of-options] gives "no cookie". *)
Example nop_nop_eol :
  forall fuel, _tfocookie (3 + fuel) (segment [1; 1; 0; 0] [] 40000 7 0) = Ret CNone.
Proof.
  intros fuel. apply loop_more_fuel; [vm_compute; reflexivity | discriminate].
Qed.

(** Kind 34 (lines 55-61): a length byte of 2 moves on by two bytes, any
    other length byte is reported as a cookie. *)
Lemma body_kind34 (b : list Z) (c l : Z) :
  0 <= c ->
  b !! Z.to_nat c = Some 34 ->
  b !! Z.to_nat (c + 1) = Some l ->
  body {| options := OBytes b; cp := c |} =
    if l =? 2 then Continue {| options := OBytes b; cp := c + 2 |}
    else Return (CPair 0 34).
Proof.
  intros Hc Hk Hl. unfold body. simpl.
  destruct b as [|x b']; [rewrite lookup_nil in Hk; discriminate|].
  rewrite (index_in_range _ _ _ Hc Hk). simpl.
  rewrite (index_in_range _ (c + 1) l) by (lia || done). simpl. done.
Qed.

(** Kind 253 followed by the magic [249, 137] (lines 62-69): a length byte
    of at most 4 moves on by that many bytes, a larger one is reported as
    a cookie. *)
Lemma body_kind253_magic (b : list Z) (c l : Z) :
  0 <= c ->
  b !! Z.to_nat c = Some 253 ->
  b !! Z.to_nat (c + 1) = Some l ->
  b !! Z.to_nat (c + 2) = Some 249 ->
  b !! Z.to_nat (c + 3) = Some 137 ->
  body {| options := OBytes b; cp := c |} =
    if l <=? 4 then Continue {| options := OBytes b; cp := c + l |}
    else Return (CPair 0 253).
Proof.
  intros Hc Hk Hl Ha Hb. unfold body. simpl.
  destruct b as [|x b']; [rewrite lookup_nil in Hk; discriminate|].
  rewrite (index_in_range _ _ _ Hc Hk). simpl.
  rewrite (index_in_range _ (c + 2) 249) by (lia || done). simpl.
  rewrite (index_in_range _ (c + 3) 137) by (lia || done). simpl.
  rewrite (index_in_range _ (c + 1) l) by (lia || done). simpl.
  destruct (l <=? 4); done.
Qed.

(** The [else] of line 78 on a [bytes] buffer: it either returns [False]
    or moves [cp] beyond the end of the buffer; it never moves on to a
    following option. *)
Lemma generic_rule_cases (b : list Z) (c : Z) :
  generic_rule {| options := OBytes b; cp := c |} = Return CFalse
  \/ generic_rule {| options := OBytes b; cp := c |} = Raise IndexError
  \/ exists l, Z.of_nat (length b) < l /\
       generic_rule {| options := OBytes b; cp := c |} =
         Continue {| options := OBytes b; cp := c + l |}.
Proof.
  unfold generic_rule. simpl.
  destruct (index b (c + 1)) as [l|e|] eqn:Hl; simpl.
  - destruct (l <=? Z.of_nat (length b)) eqn:Hle; [by left|].
    right; right. exists l. split; [lia|done].
  - right; left. unfold index in Hl.
    repeat (case_match; try discriminate); congruence.
  - unfold index in Hl. repeat (case_match; try discriminate).
Qed.

(** So, started on an option of any other kind at a position [c] of a
    non-empty buffer whose first byte is not 254, the parser stops within
    two passes: with [False], or with [IndexError]. *)
Lemma generic_kind_never_skipped (b : list Z) (c k : Z) (fuel : nat) :
  0 <= c ->
  b !! Z.to_nat c = Some k ->
  k <> 0 -> k <> 1 -> k <> 34 -> k <> 253 ->
  b !! 0%nat <> Some 254 ->
  loop (2 + fuel) {| options := OBytes b; cp := c |} = Ret CFalse
  \/ loop (2 + fuel) {| options := OBytes b; cp := c |} = Raise IndexError.
Proof.
  intros Hc Hk H0 H1 H34 H253 H254.
  assert (Hb : body {| options := OBytes b; cp := c |} =
               generic_rule {| options := OBytes b; cp := c |}).
  { unfold body. simpl.
    destruct b as [|x b'] eqn:Eb; [rewrite lookup_nil in Hk; discriminate|].
    rewrite <- Eb in *.
    rewrite (index_in_range _ _ _ Hc Hk). simpl.
    repeat (match goal with
            | |- context [?a =? ?n] =>
                destruct (Z.eqb_spec a n); [congruence|]
            end).
    unfold kind254_rule. simpl.
    assert (Hx : index b 0 = Ret x).
    { apply index_in_range; [lia|]. subst b. done. }
    rewrite Hx. simpl.
    destruct (Z.eqb_spec x 254) as [->|_]; [|done].
    exfalso. apply H254. subst b. done. }
  change (loop (2 + fuel) ?s) with
    (match body s with
     | Ret (inl s') => loop (1 + fuel) s'
     | Ret (inr c) => Ret c
     | Raise e => Raise e
     | OutOfFuel => OutOfFuel
     end).
  rewrite Hb.
  destruct (generic_rule_cases b c) as [-> | [-> | (l & Hl & ->)]].
  - by left.
  - by right.
  - right. unfold Continue. simpl. unfold body. simpl.
    destruct b as [|x b'] eqn:Eb; [rewrite lookup_nil in Hk; discriminate|].
    rewrite <- Eb in *.
    rewrite index_past_end; [done|]. lia.
Qed.

(** Kind 1 (lines 52-54) moves on by one byte. *)
Lemma body_nop (b : list Z) (c : Z) :
  0 <= c ->
  b !! Z.to_nat c = Some 1 ->
  body {| options := OBytes b; cp := c |} =
    Continue {| options := OBytes b; cp := c + 1 |}.
Proof.
  intros Hc Hk. unfold body. simpl.
  destruct b as [|x b']; [rewrite lookup_nil in Hk; discriminate|].
  by rewrite (index_in_range _ _ _ Hc Hk).
Qed.

(** With [cp] at or beyond the end of a non-empty buffer, the read of
    [options[cp]] on line 50 raises. *)
Lemma body_past_end (b : list Z) (c : Z) :
  b <> [] ->
  Z.of_nat (length b) <= c ->
  body {| options := OBytes b; cp := c |} = Raise IndexError.
Proof.
  intros Hb Hc. unfold body. simpl.
  destruct b as [|x b']; [done|].
  by rewrite index_past_end.
Qed.

(** A non-empty options region made of NOPs only (padding without an
    End-of-options byte): the scan runs off the end of the buffer. *)
Lemma nops_only_run_off (n : nat) (fuel : nat) :
  forall k : nat,
    (0 < n)%nat -> (k <= n)%nat ->
    loop (S (n - k) + fuel)
      {| options := OBytes (replicate n 1); cp := Z.of_nat k |} = Raise IndexError.
Proof.
  intros k Hn Hk. remember (n - k)%nat as m eqn:Hm.
  revert k Hk Hm. induction m as [|m IH]; intros k Hk Hm.
  - cbn [Nat.add loop]. rewrite body_past_end; [done| |].
    + intros E. apply (f_equal length) in E.
      rewrite length_replicate in E. simpl in E. lia.
    + rewrite length_replicate. lia.
  - change (S (S m) + fuel)%nat with (S (S m + fuel)).
    cbn [loop]. rewrite body_nop;
      [|lia|rewrite Nat2Z.id; apply lookup_replicate_2; lia].
    unfold Continue.
    replace (Z.of_nat k + 1) with (Z.of_nat (S k)) by lia.
    apply IH; lia.
Qed.

(** C1.  The parser does not check its reads against the options region:
    on an options region whose last byte is kind 34 (the multi-byte
    Fast-Open option with its length byte cut off) the read of
    [options[cp+1]] is outside the buffer and the call ends in [IndexError]
    instead of returning "no cookie"; and on kind 253 with the magic and a
    declared length of 0 the scan position never moves, so the call gives
    no answer however many passes of the loop are allowed. *)
Theorem tfocookie_unchecked_reads :
  (forall fuel, _tfocookie (4 + fuel) truncated_fastopen = Raise IndexError)
  /\ (forall fuel, _tfocookie fuel zero_length_253 = OutOfFuel).
Proof.
  split.
  - intros fuel. apply loop_more_fuel; [vm_compute; reflexivity | discriminate].
  - intros fuel. apply loop_stuck. vm_compute. reflexivity.
Qed.

(** Kind 254 without the magic, as the first option: control reaches the
    end of the loop body with the state unchanged, and the loop never
    ends. *)
Lemma tfocookie_plain_254_loops :
  forall fuel, _tfocookie fuel plain_254 = OutOfFuel.
Proof. intros fuel. apply loop_stuck. vm_compute. reflexivity. Qed.

(** C4.  The experimental Fast-Open option under kind 254, with the magic
    tag and a six-byte cookie, placed after two NOPs, is not reported: the
    test of line 70 looks at [options[0]], finds a NOP, and the [else] of
    line 78 returns [False].  The same bytes under kind 253 are reported as
    a cookie. *)
Theorem tfocookie_kind254_cookie_missed :
  (forall fuel, _tfocookie (3 + fuel) padded_254_cookie = Ret CFalse)
  /\ (forall fuel, _tfocookie (3 + fuel) padded_253_cookie = Ret (CPair 0 253)).
Proof.
  split; intros fuel;
    (apply loop_more_fuel; [vm_compute; reflexivity | discriminate]).
Qed.

(** C5.  An option of another kind is not skipped: with the maximum segment
    size option (kind 2, declared length 4) in front of a Fast-Open option
    that carries a cookie, the parser returns [False] at the first option,
    because its declared length 4 is at most [len(options)] = 12; the same
    Fast-Open option placed first is reported. *)
Theorem tfocookie_generic_option_not_skipped :
  (forall fuel, _tfocookie (1 + fuel) mss_then_cookie = Ret CFalse)
  /\ (forall fuel, _tfocookie (1 + fuel) cookie_first = Ret (CPair 0 34)).
Proof.
  split; intros fuel;
    (apply loop_more_fuel; [vm_compute; reflexivity | discriminate]).
Qed.

End TfoCookieFacts.

(** ** The Fast-Open state machine *)

Module TfoChainFacts.

Import TfoCookie TfoChain Inputs.

Ltac lookups :=
  unfold tfoworking, getitem;
  repeat match goal with
         | H : ?m !! ?k = Some _ |- context [?m !! ?k] => rewrite H
         end;
  cbn [bind py_lt py_gt py_add py_eq as_int].

(** An incoming segment that acknowledges [S + L + 1] moves a context with
    recorded sequence number [S > 0] and length [L] to state 2 and stops
    the tracking, whatever the option parser returned for the segment. *)
Lemma tfoworking_acked (fuel : nat) (rec : flowctx) (tcp : tcp_hdr) (rev : bool)
  (p S L : Z) (c : cookie) :
  rec !! "sp" = Some (VInt p) ->
  p <> tcp.(src_port) ->
  _tfocookie fuel tcp = Ret c ->
  rec !! "tfo_seq" = Some (VInt S) ->
  0 < S ->
  rec !! "tfo_len" = Some (VInt L) ->
  tcp.(ack_nbr) = S + L + 1 ->
  tfoworking fuel rec tcp rev = Ret (<["tfoworking" := VInt 2]> rec, false).
Proof.
  intros Hsp Hp Hc Hs Hpos Hl Hack. lookups. rewrite Hc. cbn [bind].
  destruct (Z.eqb_spec p tcp.(src_port)) as [?|_]; [done|].
  replace (S <? 0) with false by lia.
  rewrite andb_false_r. cbn [andb negb].
  replace (0 <? S) with true by lia.
  rewrite Hack, Z.eqb_refl. done.
Qed.

(** An outgoing segment with payload and without cookie at sequence number
    [S + 1], one beyond the recorded one, is the fall-back: sequence and
    length are set to -500 and the flow stays tracked. *)
Lemma tfoworking_fallback (fuel : nat) (rec : flowctx) (tcp : tcp_hdr) (rev : bool)
  (S L : Z) (c : cookie) :
  rec !! "sp" = Some (VInt tcp.(src_port)) ->
  _tfocookie fuel tcp = Ret c ->
  cookie_truthy c = false ->
  rec !! "tfo_seq" = Some (VInt S) ->
  0 <= S ->
  rec !! "tfo_len" = Some (VInt L) ->
  0 < Z.of_nat (length tcp.(data)) - tcp.(doff) * 4 ->
  tcp.(seq_nbr) = S + 1 ->
  tfoworking fuel rec tcp rev =
    Ret (<["tfo_len" := VInt (-500)]> (<["tfo_seq" := VInt (-500)]> rec), true).
Proof.
  intros Hsp Hc Hno Hs Hpos Hl Hdata Hseq. lookups. rewrite Hc. cbn [bind].
  rewrite Hno, Z.eqb_refl.
  replace (S <? 0) with false by lia.
  cbn [andb negb].
  replace (0 <? Z.of_nat (length tcp.(data)) - tcp.(doff) * 4) with true by lia.
  rewrite Hseq, Z.eqb_refl. done.
Qed.

(** §8 of the specification: an outgoing SYN with cookie at sequence 1000
    with four bytes of payload, then an incoming ACK of 1005, ends in
    state 2 (ACKED) with the handler returning [False]. *)
Example syn_1000_ack_1005 :
  tfoworking 5 fresh_ctx (syn_with_cookie 1000) false = Ret (recorded 1000 4, true)
  /\ tfoworking 5 (recorded 1000 4) (incoming_ack 1005) true =
       Ret (<["tfoworking" := VInt 2]> (recorded 1000 4), false).
Proof. split; vm_compute; reflexivity. Qed.

(** C6.  With the recorded sequence number 0: the outgoing SYN with cookie
    at sequence 0 with four bytes of payload is recorded (sequence 0,
    length 4, state 1), and the incoming ACK of 0 + 4 + 1 = 5 leaves the
    context in state 1 and the handler returns [True]: the test of line
    102 asks for [tfo_seq > 0]. *)
Theorem tfoworking_ack_missed_at_sequence_zero :
  tfoworking 5 fresh_ctx (syn_with_cookie 0) false = Ret (recorded 0 4, true)
  /\ tfoworking 5 (recorded 0 4) (incoming_ack 5) true = Ret (recorded 0 4, true)
  /\ recorded 0 4 !! "tfoworking" = Some (VInt 1).
Proof. repeat split; vm_compute; reflexivity. Qed.

(** C7, as the specification states it: after a cookie-bearing segment at
    sequence 1000 was recorded, an outgoing segment at the same sequence
    1000 without a cookie leaves sequence and length as they were; they
    are not replaced by a sentinel. *)
Lemma tfoworking_same_sequence_not_fallback :
  tfoworking 5 (recorded 1000 4) (outgoing_data 1000) false =
    Ret (recorded 1000 4, true)
  /\ recorded 1000 4 !! "tfo_seq" = Some (VInt 1000)
  /\ recorded 1000 4 !! "tfo_len" = Some (VInt 4).
Proof. repeat split; vm_compute; reflexivity. Qed.

(** C7, amended: for a context with a recorded sequence number [S >= 0]
    and an integer length, an outgoing segment in which the option parser
    finds no cookie is the fall-back exactly when it carries payload and
    its sequence number is [S + 1]: then [tfo_seq] and [tfo_len] become
    -500 and nothing else in the context changes.  Every other such
    segment, one at the recorded sequence number [S] among them, leaves the
    context as it is.  The handler returns [True] in both cases. *)
Theorem tfoworking_fallback_at_next_sequence
  (fuel : nat) (rec : flowctx) (tcp : tcp_hdr) (rev : bool)
  (S L : Z) (c : cookie) :
  rec !! "sp" = Some (VInt tcp.(src_port)) ->
  _tfocookie fuel tcp = Ret c ->
  cookie_truthy c = false ->
  rec !! "tfo_seq" = Some (VInt S) ->
  0 <= S ->
  rec !! "tfo_len" = Some (VInt L) ->
  tfoworking fuel rec tcp rev =
    Ret (if (0 <? Z.of_nat (length tcp.(data)) - tcp.(doff) * 4)
            && (tcp.(seq_nbr) =? S + 1)
         then <["tfo_len" := VInt (-500)]> (<["tfo_seq" := VInt (-500)]> rec)
         else rec,
         true).
Proof.
  intros Hsp Hc Hno Hs Hpos Hl. lookups. rewrite Hc. cbn [bind].
  rewrite Hno, Z.eqb_refl.
  replace (S <? 0) with false by lia.
  cbn [andb negb].
  destruct ((0 <? Z.of_nat (length tcp.(data)) - tcp.(doff) * 4)
            && (tcp.(seq_nbr) =? S + 1)); done.
Qed.

(** On the context recorded at sequence 1000: payload at sequence 1001 is
    the fall-back, payload at sequence 1000 is not. *)
Lemma tfoworking_fallback_at_next_sequence_witness :
  tfoworking 5 (recorded 1000 4) (outgoing_data 1001) false =
    Ret (<["tfo_len" := VInt (-500)]>
           (<["tfo_seq" := VInt (-500)]> (recorded 1000 4)), true)
  /\ tfoworking 5 (recorded 1000 4) (outgoing_data 1000) false =
    Ret (recorded 1000 4, true).
Proof.
  split.
  - apply (tfoworking_fallback_at_next_sequence 5 (recorded 1000 4)
             (outgoing_data 1001) false 1000 4 CNone);
      first [ reflexivity | lia ].
  - apply (tfoworking_fallback_at_next_sequence 5 (recorded 1000 4)
             (outgoing_data 1000) false 1000 4 CNone);
      first [ reflexivity | lia ].
Defined.

End TfoChainFacts.

(** ** [TFOSpider.connect] *)

Module ConnectFacts.

Import Connect Inputs PyFacts.

Section WithSockets.

Context {world sock : Type}.
Variable api : socket_api world sock.

(** [make_connection] on a bound local gives a [Connection] in the state
    asked for, when [getsockname] does not raise. *)
Lemma make_connection_state (s : sock) (st : Z) (w : world) :
  (forall s0 w0, exists p w1, api.(getsockname_port) s0 w0 = (Ret p, w1)) ->
  exists c w', make_connection api (Some s) st w = (Ret c, w') /\ c.(state) = st.
Proof.
  intros Hg. unfold make_connection, iobind, read_local, ret.
  destruct (Hg s w) as (p & w1 & ->). by eexists _, _.
Qed.

(** Configuration 0: when the socket can be created, [getsockname] does
    not raise, and [settimeout] and [connect] raise nothing but
    [OSError]s, the call returns a [Connection] whose state is one of
    the three outcomes. *)
Lemma connect_regular_classified (t : Z) (h : string) (p : pyval)
  (rest : list pyval) (w : world) :
  (forall af w0, exists s w1, api.(socket_new) af w0 = (Ret s, w1)) ->
  (forall s0 w0, exists q w1, api.(getsockname_port) s0 w0 = (Ret q, w1)) ->
  (forall s0 w0, (exists w1, api.(settimeout) s0 t w0 = (Ret tt, w1))
     \/ exists e w1, api.(settimeout) s0 t w0 = (Raise e, w1) /\ is_OSError e = true) ->
  (forall s0 w0, (exists w1, api.(sock_connect) s0 (VStr h) p w0 = (Ret tt, w1))
     \/ exists e w1, api.(sock_connect) s0 (VStr h) p w0 = (Raise e, w1)
                    /\ is_OSError e = true) ->
  exists c w',
    connect api t (VStr h :: p :: rest) 0 w = (Ret (Some c), w')
    /\ (c.(state) = CONN_OK \/ c.(state) = CONN_FAILED \/ c.(state) = CONN_TIMEOUT).
Proof.
  intros Hnew Hname Hset Hconn.
  unfold connect, iobind at 1 2, lift. cbn [index length].
  change (Py.index (VStr h :: p :: rest) 0) with (@Ret pyval (VStr h)).
  cbn [count_method]. cbn [Z.eqb].
  set (af := if 1 <=? count_colon h then AF_INET6 else AF_INET).
  unfold iobind at 1, connect_regular, iobind at 1.
  destruct (Hnew af w) as (s & w1 & ->).
  unfold try_except, iobind at 1.
  destruct (Hset s w1) as [(w2 & ->) | (e & w2 & -> & He)].
  - unfold iobind at 1, lift.
    change (Py.index (VStr h :: p :: rest) 0) with (@Ret pyval (VStr h)).
    unfold iobind at 1.
    rewrite (index_in_range (VStr h :: p :: rest) 1 p) by (lia || done).
    unfold iobind at 1.
    destruct (Hconn s w2) as [(w3 & ->) | (e & w3 & -> & He)].
    + destruct (make_connection_state s CONN_OK w3 Hname) as (c & w' & -> & Hc).
      exists c, w'. unfold ret. split; [done|]. by left.
    + rewrite He. unfold classify.
      destruct (is_TimeoutError e).
      * destruct (make_connection_state s CONN_TIMEOUT w3 Hname)
          as (c & w' & -> & Hc).
        exists c, w'. unfold ret. split; [done|]. by right; right.
      * destruct (make_connection_state s CONN_FAILED w3 Hname)
          as (c & w' & -> & Hc).
        exists c, w'. unfold ret. split; [done|]. by right; left.
  - rewrite He. unfold classify.
    destruct (is_TimeoutError e).
    + destruct (make_connection_state s CONN_TIMEOUT w2 Hname)
        as (c & w' & -> & Hc).
      exists c, w'. unfold ret. split; [done|]. by right; right.
    + destruct (make_connection_state s CONN_FAILED w2 Hname)
        as (c & w' & -> & Hc).
      exists c, w'. unfold ret. split; [done|]. by right; left.
Qed.

(** Configuration 0 creates its socket on line 167, before the [try]:
    whatever [socket.socket] raises leaves [connect]. *)
Lemma connect_regular_socket_error_escapes (t : Z) (h : string)
  (rest : list pyval) (e : exn) (w w' : world) :
  (forall af, api.(socket_new) af w = (Raise e, w')) ->
  connect api t (VStr h :: rest) 0 w = (Raise e, w').
Proof.
  intros Hnew. unfold connect, iobind at 1 2, lift.
  change (Py.index (VStr h :: rest) 0) with (@Ret pyval (VStr h)).
  cbn [count_method Z.eqb].
  unfold iobind at 1, connect_regular, iobind at 1.
  by rewrite Hnew.
Qed.

(** A configuration other than 0 and 1 gives [None], not a
    [Connection]. *)
Lemma connect_other_config (t : Z) (h : string) (rest : list pyval)
  (config : Z) (w : world) :
  config <> 0 -> config <> 1 ->
  connect api t (VStr h :: rest) config w = (Ret None, w).
Proof.
  intros H0 H1. unfold connect, iobind at 1 2, lift.
  change (Py.index (VStr h :: rest) 0) with (@Ret pyval (VStr h)).
  cbn [count_method].
  destruct (Z.eqb_spec config 0); [done|].
  destruct (Z.eqb_spec config 1); [done|]. done.
Qed.

(** Line 181 reads [job[2]] outside every [try], before any socket is
    touched: a job without host field makes configuration 1 raise
    [IndexError], whatever the sockets do. *)
Lemma connect_tfo_needs_host (t : Z) (w : world) :
  connect api t job_without_host 1 w = (Raise IndexError, w).
Proof. reflexivity. Qed.

End WithSockets.

(** A refused connection is classified: both configurations return a
    [Connection] in state [CONN_FAILED]. *)
Example connect_refused :
  connect refused 10 job_with_host 0 0%nat =
    (Ret (Some {| client := 0%nat; port := 40000; state := CONN_FAILED |}), 1%nat)
  /\ connect refused 10 job_with_host 1 0%nat =
    (Ret (Some {| client := 1%nat; port := 40001; state := CONN_FAILED |}), 2%nat).
Proof. split; vm_compute; reflexivity. Qed.

(** C2.  Exceptions leave [connect].  For the job ("203.0.113.10", 80),
    which has no host field, configuration 1 raises [IndexError] for every
    behaviour of the sockets and every timeout.  For a job with all four
    fields, in a process that has no file descriptor left, configuration 0
    raises the [OSError] of [socket.socket] (line 167 is before the [try]),
    and configuration 1 raises [UnboundLocalError] (the handler of line 199
    reads [sock], which no assignment has bound). *)
Theorem connect_lets_exceptions_escape :
  (forall (world sock : Type) (api : socket_api world sock) (t : Z) (w : world),
      connect api t job_without_host 1 w = (Raise IndexError, w))
  /\ connect no_descriptors 10 job_with_host 0 tt = (Raise OSError, tt)
  /\ connect no_descriptors 10 job_with_host 1 tt = (Raise UnboundLocalError, tt).
Proof.
  split; [|split].
  - intros world sock api t w. apply connect_tfo_needs_host.
  - vm_compute. reflexivity.
  - vm_compute. reflexivity.
Qed.

End ConnectFacts.

(** ** [TFOSpider.merge] *)

Module MergeFacts.

Import Merge Inputs.

(** Without a flow the merged record has exactly these six keys. *)
Lemma merged_no_flow_dom (res : SpiderRecord) :
  dom (merged NO_FLOW res) =
    ({[ "dip"; "sp"; "dp"; "connstate"; "tfostate"; "observed" ]} : gset string).
Proof.
  unfold merged. rewrite !dom_insert_L, dom_empty_L. set_solver.
Qed.

(** With a flow the merged record keeps every key of the flow and is
    marked as observed. *)
Lemma merged_flow_observed (d : gmap string pyval) (res : SpiderRecord) :
  merged (Flow d) res !! "observed" = Some (VBool true)
  /\ dom d ⊆ dom (merged (Flow d) res).
Proof.
  split; [apply lookup_insert_eq|].
  unfold merged. rewrite !dom_insert_L. set_solver.
Qed.

(** C3, as the specification states it: an active record of
    [EcnSpider2.merge] that comes with the placeholder instead of a flow
    record gives no merged record; reading [flow.octets] raises
    [AttributeError] before the result sink is reached. *)
Lemma ecn_merge_without_flow_raises :
  Ecn.merge [] Ecn.Unobserved Scenarios.ecn_failed_attempt = Raise AttributeError
  /\ ~ exists m, Ecn.merge [] Ecn.Unobserved Scenarios.ecn_failed_attempt
                  = Ret ([] ++ [m]).
Proof. split; [reflexivity|]. intros [m H]. discriminate. Qed.

(** C3, amended.  [TFOSpider.merge] puts exactly one record on the queue for
    every active record.  For the placeholder [NO_FLOW] that record is made
    of the active record alone: [dip], [sp], [dp], [connstate] and
    [tfostate] are its [ip], [port], [rport], [connstate] and [tfostate],
    [observed] is [False], and there is no other key, so no byte or packet
    counter.  For a flow dictionary it is that dictionary with [connstate],
    [host], [rank] and [tfostate] of the active record and [observed] set to
    [True].  [EcnSpider2.merge], given a flow record, hands the sink exactly
    one record with the five fields of the active record and the seven of
    the flow record. *)
Theorem merge_record_per_active_record
  (outqueue : list (gmap string pyval)) (res : SpiderRecord) :
  (exists m,
      merge outqueue NO_FLOW res = outqueue ++ [m]
      /\ m !! "dip" = Some res.(ip)
      /\ m !! "sp" = Some res.(port)
      /\ m !! "dp" = Some res.(rport)
      /\ m !! "connstate" = Some res.(connstate)
      /\ m !! "tfostate" = Some res.(tfostate)
      /\ m !! "observed" = Some (VBool false)
      /\ dom m =
           ({[ "dip"; "sp"; "dp"; "connstate"; "tfostate"; "observed" ]}
              : gset string))
  /\ (forall d, exists m,
        merge outqueue (Flow d) res = outqueue ++ [m]
        /\ m !! "connstate" = Some res.(connstate)
        /\ m !! "host" = Some res.(host)
        /\ m !! "rank" = Some res.(rank)
        /\ m !! "tfostate" = Some res.(tfostate)
        /\ m !! "observed" = Some (VBool true)
        /\ forall k, k ∉ ({[ "connstate"; "host"; "rank"; "tfostate"; "observed" ]}
                            : gset string) -> m !! k = d !! k)
  /\ (forall sink f eres, exists m,
        Ecn.merge sink (Ecn.Observed f) eres = Ret (sink ++ [m])
        /\ m.(Ecn.m_ip) = eres.(Ecn.res_ip)
        /\ m.(Ecn.m_host) = eres.(Ecn.res_host)
        /\ m.(Ecn.m_ecnstate) = eres.(Ecn.ecnstate)
        /\ m.(Ecn.m_connstate) = eres.(Ecn.connstate)
        /\ m.(Ecn.m_httpstatus) = eres.(Ecn.httpstatus)
        /\ m.(Ecn.m_octets) = f.(Ecn.octets)
        /\ m.(Ecn.m_fif) = f.(Ecn.fif) /\ m.(Ecn.m_fsf) = f.(Ecn.fsf)
        /\ m.(Ecn.m_fuf) = f.(Ecn.fuf) /\ m.(Ecn.m_fir) = f.(Ecn.fir)
        /\ m.(Ecn.m_fsr) = f.(Ecn.fsr) /\ m.(Ecn.m_fur) = f.(Ecn.fur)).
Proof.
  split; [|split].
  - exists (merged NO_FLOW res). split; [done|]. unfold merged.
    repeat match goal with |- _ /\ _ => split end.
    + rewrite !lookup_insert_ne by done. apply lookup_insert_eq.
    + rewrite !lookup_insert_ne by done. apply lookup_insert_eq.
    + rewrite !lookup_insert_ne by done. apply lookup_insert_eq.
    + rewrite !lookup_insert_ne by done. apply lookup_insert_eq.
    + rewrite !lookup_insert_ne by done. apply lookup_insert_eq.
    + apply lookup_insert_eq.
    + apply merged_no_flow_dom.
  - intros d. exists (merged (Flow d) res). split; [done|]. unfold merged.
    repeat match goal with |- _ /\ _ => split end.
    + rewrite !lookup_insert_ne by done. apply lookup_insert_eq.
    + rewrite !lookup_insert_ne by done. apply lookup_insert_eq.
    + rewrite !lookup_insert_ne by done. apply lookup_insert_eq.
    + rewrite !lookup_insert_ne by done. apply lookup_insert_eq.
    + apply lookup_insert_eq.
    + intros k Hk. rewrite !lookup_insert_ne; [done|set_solver..].
  - intros sink f eres. eexists. split; [reflexivity|].
    repeat match goal with |- _ /\ _ => split end; reflexivity.
Qed.

Example merge_failed_attempt :
  merge [] NO_FLOW failed_attempt =
    [ list_to_map [ ("dip", VStr "203.0.113.10"); ("sp", VInt 40000);
                    ("dp", VInt 80); ("connstate", VBool false);
                    ("tfostate", VInt 1); ("observed", VBool false) ] ].
Proof. vm_compute. reflexivity. Qed.

End MergeFacts.

(** ** [EcnSpider2.tupleize_flow] *)

Module EcnFacts.

Import Ecn Inputs.

(** [x | TCP_RST] has bit 2 set, so it is never zero. *)
Lemma lor_rst_nonzero (x : Z) : Z.lor x TCP_RST <> 0.
Proof.
  intros H. apply Z.lor_eq_0_iff in H. destruct H as [_ H].
  unfold TCP_RST in H. discriminate.
Qed.

(** The body of the [try] never runs to its end: the test of line 143 holds
    of every integer. *)
Lemma short_circuit_never_passes (flow : gmap string pyval) :
  short_circuit flow <> Ret false.
Proof.
  unfold short_circuit, getitem.
  destruct (flow !! "protocolIdentifier") as [proto|]; cbn [bind]; [|done].
  destruct (negb (py_eq proto (VInt 6))); [done|].
  destruct (flow !! "destinationTransportPort") as [dport|]; cbn [bind]; [|done].
  destruct (negb (py_eq dport (VInt 80))); [done|].
  destruct (flow !! "initialTCPFlags") as [flags|]; cbn [bind]; [|done].
  unfold py_or. destruct (as_int flags) as [x|]; cbn [as_int bind]; [|done].
  cbn [truthy].
  destruct (Z.eqb_spec (Z.lor x TCP_RST) 0) as [H|_]; [|done].
  by apply lor_rst_nonzero in H.
Qed.

(** The body of the [try] has no loop. *)
Lemma short_circuit_answers (flow : gmap string pyval) :
  short_circuit flow <> OutOfFuel.
Proof.
  unfold short_circuit, getitem, py_or.
  repeat (case_match; cbn [bind]; try discriminate).
Qed.

(** [EcnSpider2.merge] hands one record to the sink for every flow record
    it is given, with the octet counter of the flow. *)
Lemma ecn_merge_emits (sink : list MergedRecord) (flow : FlowRecord)
  (res : SpiderRecord) :
  exists m, merge sink (Observed flow) res = Ret (sink ++ [m])
            /\ m.(m_octets) = flow.(octets).
Proof. unfold merge. by eexists. Qed.

(** [tupleize_flow] returns [None] for every flow and every spider. *)
Lemma tupleize_flow_always_none (self : spider) (flow : gmap string pyval) :
  tupleize_flow self flow = Ret None.
Proof.
  unfold tupleize_flow.
  pose proof (short_circuit_never_passes flow) as Hpass.
  pose proof (short_circuit_answers flow) as Hans.
  destruct (short_circuit flow) as [[|]|e|]; congruence.
Qed.

(** What lines 148-175 give for the HTTP flow, were they reached: a record
    keyed on the IPv4 destination address would need the key
    [lastSynTCPFlags], which the flow has. *)
Example tail_on_http_flow :
  (let! sel := select_ip this_spider http_flow in
   match sel with
   | None => Ret None
   | Some a => let! r := export a http_flow in Ret (Some r)
   end) =
  Ret (Some {| ip := VStr "203.0.113.10"; port := VInt 40000; octets := VInt 512;
               fif := VInt 2; fsf := VInt 2; fuf := VInt 27;
               fir := VInt 18; fsr := VInt 18; fur := VInt 27 |}).
Proof. vm_compute. reflexivity. Qed.

(** C8.  The flow of an HTTP connection opened by this host (TCP,
    destination port 80, initial flags SYN without RST, source address the
    local IPv4 address) is discarded: [tupleize_flow] returns [None],
    because [initialTCPFlags | TCP_RST] on line 143 is 6, which is true. *)
Theorem tupleize_flow_discards_matching_flow :
  tupleize_flow this_spider http_flow = Ret None
  /\ (let! f := getitem http_flow "initialTCPFlags" in py_or f (VInt TCP_RST))
     = Ret (VInt 6)
  /\ (let! f := getitem http_flow "initialTCPFlags" in py_and f (VInt TCP_RST))
     = Ret (VInt 0).
Proof.
  split; [apply tupleize_flow_always_none|].
  split; vm_compute; reflexivity.
Qed.

End EcnFacts.

(** ** The resolver client *)

Module ResolverFacts.

Import Resolver.

Section TakeFacts.

Context {A : Type}.

(** While [count - index] elements are still wanted and the iterator can
    deliver them, the generator yields them in order and stops. *)
Lemma consume_enough (l : list A) :
  forall (i n : Z) (fuel : nat),
    i <= n ->
    (Z.to_nat (n - i) <= length l)%nat ->
    (Z.to_nat (n - i) < fuel)%nat ->
    consume fuel {| index := i; count := n; it := l |} =
      (firstn (Z.to_nat (n - i)) l, Ret tt).
Proof.
  induction l as [|x l IH]; intros i n fuel Hin Hlen Hfuel.
  - simpl in Hlen. assert (i = n) by lia. subst i.
    destruct fuel as [|fuel]; [lia|].
    simpl. unfold resume. simpl. rewrite Z.ltb_irrefl.
    by rewrite Z.sub_diag.
  - destruct fuel as [|fuel]; [lia|].
    simpl. unfold resume. simpl.
    destruct (Z.ltb_spec i n) as [Hlt|Hge].
    + destruct (Z.leb_spec n i) as [?|_]; [lia|].
      rewrite (IH (i + 1) n fuel) by (simpl in Hlen; lia).
      replace (Z.to_nat (n - i)) with (S (Z.to_nat (n - (i + 1)))) by lia.
      done.
    + replace (Z.to_nat (n - i)) with 0%nat by lia. done.
Qed.

(** When more elements are wanted than the iterator has, the generator
    yields all of them and then fails. *)
Lemma consume_short (l : list A) :
  forall (i n : Z) (fuel : nat),
    Z.of_nat (length l) < n - i ->
    (length l < fuel)%nat ->
    consume fuel {| index := i; count := n; it := l |} =
      (l, Raise RuntimeError).
Proof.
  induction l as [|x l IH]; intros i n fuel Hlen Hfuel;
    (destruct fuel as [|fuel]; [simpl in Hfuel; lia|]);
    simpl in *; unfold resume; simpl;
    (destruct (Z.ltb_spec i n) as [_|?]; [|lia]);
    (destruct (Z.leb_spec n i) as [?|_]; [lia|]).
  - done.
  - rewrite (IH (i + 1) n fuel) by lia. done.
Qed.

(** C10.  For a non-negative [count], consuming [take(count, iterable)]
    yields the first [count] elements in order and stops when the
    iterable has at least [count] elements; when it has fewer, all its
    elements are yielded and the generator then raises ([RuntimeError],
    from the [StopIteration] of [next(it)]) instead of stopping; so
    [list(take(count, iterable))] is the prefix in the first case and
    an exception in the second. *)
Theorem take_prefix_or_raise (count : Z) (iterable : list A) (fuel : nat) :
  0 <= count ->
  (Z.to_nat (Z.min count (Z.of_nat (length iterable))) < fuel)%nat ->
  consume fuel (take count iterable) =
    (if count <=? Z.of_nat (length iterable)
     then (firstn (Z.to_nat count) iterable, Ret tt)
     else (iterable, Raise RuntimeError))
  /\ py_list fuel (take count iterable) =
    (if count <=? Z.of_nat (length iterable)
     then Ret (firstn (Z.to_nat count) iterable)
     else Raise RuntimeError).
Proof.
  intros Hc Hfuel.
  assert (Hcons : consume fuel (take count iterable) =
    (if count <=? Z.of_nat (length iterable)
     then (firstn (Z.to_nat count) iterable, Ret tt)
     else (iterable, Raise RuntimeError))).
  { unfold take.
    destruct (Z.leb_spec count (Z.of_nat (length iterable))) as [Hle|Hgt].
    - rewrite consume_enough by lia. by rewrite Z.sub_0_r.
    - apply consume_short; lia. }
  split; [exact Hcons|].
  unfold py_list. rewrite Hcons.
  destruct (count <=? Z.of_nat (length iterable)); done.
Qed.

End TakeFacts.

(** Two of three elements, and five of three. *)
Lemma take_prefix_or_raise_witness :
  (consume 3 (take 2 [10; 20; 30]) = ([10; 20], Ret tt)
   /\ py_list 3 (take 2 [10; 20; 30]) = Ret [10; 20])
  /\ (consume 4 (take 5 [10; 20; 30]) = ([10; 20; 30], Raise RuntimeError)
      /\ py_list 4 (take 5 [10; 20; 30]) = Raise RuntimeError).
Proof.
  split.
  - apply (take_prefix_or_raise 2 [10; 20; 30] 3); simpl; lia.
  - apply (take_prefix_or_raise 5 [10; 20; 30] 4); simpl; lia.
Defined.

(** *** The polling loop *)

Lemma poll_times_app (a b : list event) :
  poll_times (a ++ b) = poll_times a ++ poll_times b.
Proof.
  induction a as [|e a IH]; [done|].
  destruct e; simpl; by rewrite IH.
Qed.

Lemma spaced_snoc (d : Q) (ts : list Q) (t' : Q) :
  spaced d ts ->
  (forall t, last ts = Some t -> (t + d <= t')%Q) ->
  spaced d (ts ++ [t']).
Proof.
  induction ts as [|t1 ts IH]; intros Hs Hl; [done|].
  destruct ts as [|t2 ts].
  - simpl. split; [|done]. by apply Hl.
  - destruct Hs as [H12 Hs]. split; [exact H12|].
    apply IH; [exact Hs|]. intros t Ht. apply Hl. exact Ht.
Qed.

Lemma passes_from_zero (T : Z) : passes_from T 0 = passes T.
Proof. unfold passes_from, passes. by rewrite Z.sub_0_r. Qed.

Lemma passes_from_step (T ts : Z) :
  ts < T -> passes_from T ts = S (passes_from T (ts + 5)).
Proof.
  intros Hlt. unfold passes_from.
  replace (T - ts + 4) with ((T - (ts + 5) + 4) + 1 * 5) by lia.
  rewrite Z.div_add by lia.
  assert (0 <= (T - (ts + 5) + 4) / 5) by (apply Z.div_pos; lia).
  lia.
Qed.

Lemma passes_from_done (T ts : Z) : T <= ts -> passes_from T ts = 0%nat.
Proof.
  intros Hge. unfold passes_from.
  assert ((T - ts + 4) / 5 <= 0); [|lia].
  assert ((T - ts + 4) / 5 < 1); [|lia].
  apply Z.div_lt_upper_bound; lia.
Qed.

Section FetchFacts.

Context {world row token : Type}.

Variable time : world -> Q.
Variable sleep : Q -> world -> world.
Variable retrieve_capabilities : world -> called unit * world.
Variable result_for : token -> world -> called (poll row) * world.
Variable forget : token -> world -> world.

(** The clock: sleeping for [d] seconds takes at least [d] seconds, and
    the calls into the mPlane client do not turn it back. *)
Hypothesis sleep_advances :
  forall d w0, (time w0 + d <= time (sleep d w0))%Q.
Hypothesis capabilities_take_time :
  forall w0, (time w0 <= time (retrieve_capabilities w0).2)%Q.
Hypothesis polls_take_time :
  forall tok w0, (time w0 <= time (result_for tok w0).2)%Q.

Local Abbreviation refresh := (refresh time retrieve_capabilities).
Local Abbreviation check := (check time retrieve_capabilities result_for forget).
Local Abbreviation poll_loop :=
  (poll_loop time sleep retrieve_capabilities result_for forget).

(** The refresh adds no poll, logs guarded refreshes only, and does not
    turn the clock back. *)
Lemma refresh_spec (c : client world) :
  (time c.(w) <= time (refresh c).(w))%Q
  /\ exists evs, (refresh c).(trace) = c.(trace) ++ evs
       /\ poll_times evs = []
       /\ Forall guarded evs
       /\ Forall pending evs.
Proof.
  unfold Resolver.refresh.
  destruct (Qlt_le_dec (last_updated c + 5) (time (w c))) as [Hlt|Hge].
  - pose proof (capabilities_take_time (w c)) as Hc. simpl.
    destruct (retrieve_capabilities (w c)) as [[u|e] w'] eqn:Hr; simpl in *.
    + split; [exact Hc|].
      exists [EvRefresh (last_updated c) (time (w c))].
      repeat split; try done; repeat constructor; done.
    + split; [exact Hc|].
      exists [EvRefresh (last_updated c) (time (w c))].
      repeat split; try done; repeat constructor; done.
  - split; [apply Qle_refl|].
    exists []. rewrite app_nil_r. repeat split; done.
Qed.

(** What one pass adds to the trace: refreshes, then one poll made at a
    time [t] not before the pass began; if the loop goes on, nothing
    more, and the clock is not before [t]; if the function is left,
    one closing event, which is [EvAnswer] when a value is returned. *)
Lemma check_spec (tok : token) (c : client world) :
  exists evs t,
    poll_times evs = [] /\ Forall guarded evs /\ Forall pending evs
    /\ (time c.(w) <= t)%Q
    /\ match check tok c with
       | Again c' =>
           c'.(trace) = c.(trace) ++ evs ++ [EvPoll t]
           /\ (t <= time c'.(w))%Q
       | Done r c' =>
           exists e, c'.(trace) = c.(trace) ++ evs ++ [EvPoll t; e]
             /\ ~ pending e
             /\ r <> OutOfFuel
             /\ (forall v, r = Ret v -> e = EvAnswer)
       end.
Proof.
  destruct (refresh_spec c) as (Ht & evs & Htr & Hp & Hg & Hpe).
  exists evs, (time (refresh c).(w)).
  repeat (split; [done|]).
  unfold Resolver.check. simpl.
  pose proof (polls_take_time tok (w (refresh c))) as Hpoll.
  destruct (result_for tok (w (refresh c))) as [[[| |addrs|]|e] w'];
    simpl in *; rewrite Htr.
  - exists EvAnswer. rewrite <- !app_assoc. simpl.
    split; [done|]. split; [tauto|]. split; done.
  - rewrite <- !app_assoc. split; [done|exact Hpoll].
  - exists EvAnswer. rewrite <- !app_assoc. simpl.
    split; [done|]. split; [tauto|]. split; done.
  - rewrite <- !app_assoc. split; [done|exact Hpoll].
  - exists EvRaised. rewrite <- !app_assoc. simpl.
    split; [done|]. split; [tauto|]. split; done.
Qed.

(** The loop, from any settled client: it answers within
    [passes_from] passes; the polls stay five seconds apart and the
    refreshes guarded; and it ends in [TimeoutException], after every
    pass was made, exactly when no poll answered or raised. *)
Lemma poll_loop_spec (tok : token) (T : Z) (fuel : nat) :
  forall (ts : Z) (c : client world),
    settled time c ->
    (passes_from T ts < fuel)%nat ->
    (poll_loop fuel tok T ts c).1 <> OutOfFuel
    /\ spaced 5 (poll_times (poll_loop fuel tok T ts c).2.(trace))
    /\ Forall guarded (poll_loop fuel tok T ts c).2.(trace)
    /\ (length (poll_times (poll_loop fuel tok T ts c).2.(trace))
          <= length (poll_times c.(trace)) + passes_from T ts)%nat
    /\ (Forall pending (poll_loop fuel tok T ts c).2.(trace) ->
          (poll_loop fuel tok T ts c).1 = Raise TimeoutException
          /\ length (poll_times (poll_loop fuel tok T ts c).2.(trace))
               = (length (poll_times c.(trace)) + passes_from T ts)%nat)
    /\ (forall v, (poll_loop fuel tok T ts c).1 = Ret v ->
          last (poll_loop fuel tok T ts c).2.(trace) = Some EvAnswer).
Proof.
  induction fuel as [|fuel IH]; intros ts c Hs Hfuel; [lia|].
  destruct Hs as [Hsp Hgu Hpe Hla].
  cbn [Resolver.poll_loop].
  destruct (Z.ltb_spec ts T) as [Hlt|Hge].
  - rewrite (passes_from_step T ts Hlt) in *.
    destruct (check_spec tok c) as (evs & t & Hp & Hg & Hpd & Ht & Hm).
    assert (Hpt : poll_times (trace c ++ evs ++ [EvPoll t]) =
                  poll_times (trace c) ++ [t]).
    { rewrite !poll_times_app, Hp. done. }
    assert (Hspaced : spaced 5 (poll_times (trace c) ++ [t])).
    { apply spaced_snoc; [done|]. intros t0 Ht0.
      specialize (Hla t0 Ht0). lra. }
    destruct (check tok c) as [c'|r c'].
    + destruct Hm as [Htr Htc].
      set (c'' := log (with_world c' (sleep 5 (w c'))) (EvSleep 5)).
      assert (Htr'' : trace c'' = (trace c ++ evs ++ [EvPoll t]) ++ [EvSleep 5]).
      { subst c''. simpl. by rewrite Htr. }
      assert (Hpt'' : poll_times (trace c'') = poll_times (trace c) ++ [t]).
      { rewrite Htr'', poll_times_app, Hpt. simpl. by rewrite app_nil_r. }
      assert (Hs'' : settled time c'').
      { constructor.
        - by rewrite Hpt''.
        - rewrite Htr''. repeat (apply Forall_app; split); try done.
          all: by repeat constructor.
        - rewrite Htr''. repeat (apply Forall_app; split); try done.
          all: by repeat constructor.
        - intros t0. rewrite Hpt'', last_snoc. intros [= <-].
          subst c''. simpl.
          pose proof (sleep_advances 5 (w c')). lra. }
      destruct (IH (ts + 5) c'' Hs'' ltac:(lia))
        as (H1 & H2 & H3 & H4 & H5 & H6).
      rewrite Hpt'', length_app in H4, H5. simpl in H4, H5.
      repeat split; try done.
      * lia.
      * by apply H5.
      * destruct (H5 H) as [_ ->]. lia.
    + destruct Hm as (e & Htr & Hne & Hr & Hv). simpl.
      assert (Hpe0 : poll_times [e] = []).
      { destruct e; simpl in *; tauto. }
      assert (Hpt' : poll_times (trace c') = poll_times (trace c) ++ [t]).
      { rewrite Htr.
        change [EvPoll t; e] with ([EvPoll t] ++ [e]).
        rewrite !app_assoc, poll_times_app, Hpe0, app_nil_r.
        rewrite <- app_assoc. exact Hpt. }
      repeat split.
      * done.
      * by rewrite Hpt'.
      * rewrite Htr. repeat (apply Forall_app; split); try done.
        destruct e; simpl in *; try tauto; by repeat constructor.
      * rewrite Hpt', length_app. simpl. lia.
      * exfalso. rewrite Htr in H.
        apply Forall_app in H as [_ H]. apply Forall_app in H as [_ H].
        inversion H as [|? ? _ H']; subst. inversion H'; subst. done.
      * exfalso. rewrite Htr in H.
        apply Forall_app in H as [_ H]. apply Forall_app in H as [_ H].
        inversion H as [|? ? _ H']; subst. inversion H'; subst. done.
      * intros v Hrv. rewrite (Hv v Hrv) in Htr. rewrite Htr.
        change [EvPoll t; EvAnswer] with ([EvPoll t] ++ [EvAnswer]).
        rewrite !app_assoc. apply last_snoc.
  - rewrite (passes_from_done T ts Hge). simpl.
    repeat split; try done. lia.
Qed.

(** Started with an empty record of events and allowed enough
    passes, [_fetch_result] always answers; successive polls of
    [result_for] are at least five seconds apart by the clock, and there
    are at most [passes request_timeout] of them; every capability
    refresh happens more than five seconds after [last_updated]; when no
    poll returns an Exception or a Result (nor raises), every pass is
    made and the call ends by raising [TimeoutException]; and it returns
    a value only directly after a poll that answered. *)
Lemma fetch_result_throttled_then_timeout
  (tok : token) (request_timeout : Z) (fuel : nat) (c : client world) :
  c.(trace) = [] ->
  (passes request_timeout < fuel)%nat ->
  let out :=
    _fetch_result time sleep retrieve_capabilities result_for forget
      fuel tok request_timeout c in
  out.1 <> OutOfFuel
  /\ spaced 5 (poll_times out.2.(trace))
  /\ (length (poll_times out.2.(trace)) <= passes request_timeout)%nat
  /\ Forall guarded out.2.(trace)
  /\ (Forall pending out.2.(trace) ->
        out.1 = Raise TimeoutException
        /\ length (poll_times out.2.(trace)) = passes request_timeout)
  /\ (forall v, out.1 = Ret v -> last out.2.(trace) = Some EvAnswer).
Proof.
  intros Htr Hfuel out. subst out. unfold _fetch_result.
  assert (Hs : settled time c).
  { constructor; rewrite Htr; simpl; try done. }
  rewrite <- passes_from_zero in *.
  destruct (poll_loop_spec tok request_timeout fuel 0 c Hs Hfuel)
    as (H1 & H2 & H3 & H4 & H5 & H6).
  rewrite Htr in H4, H5. simpl in H4, H5.
  repeat split; try done.
  - by apply H5.
  - by apply H5.
Qed.

End FetchFacts.

(** With the default [request_timeout] of 30 and a resolver that only
    hands out receipts: six polls, then [TimeoutException]. *)
Example thirty_seconds_of_receipts :
  (_fetch_result Inputs.clock_time Inputs.clock_sleep Inputs.capabilities_ok
     Inputs.always_receipt Inputs.forget_nothing 7 tt 30 Inputs.new_client).1
    = Raise TimeoutException
  /\ length (poll_times
       (_fetch_result Inputs.clock_time Inputs.clock_sleep Inputs.capabilities_ok
          Inputs.always_receipt Inputs.forget_nothing 7 tt 30
          Inputs.new_client).2.(trace)) = 6%nat.
Proof. split; vm_compute; reflexivity. Qed.

(** The same resolver and client, through the general statement. *)
Lemma fetch_result_throttled_then_timeout_witness :
  let out :=
    _fetch_result Inputs.clock_time Inputs.clock_sleep Inputs.capabilities_ok
      Inputs.always_receipt Inputs.forget_nothing 7 tt 30 Inputs.new_client in
  out.1 <> OutOfFuel
  /\ spaced 5 (poll_times out.2.(trace))
  /\ (length (poll_times out.2.(trace)) <= passes 30)%nat
  /\ Forall guarded out.2.(trace)
  /\ (Forall pending out.2.(trace) ->
        out.1 = Raise TimeoutException
        /\ length (poll_times out.2.(trace)) = passes 30)
  /\ (forall v, out.1 = Ret v -> last out.2.(trace) = Some EvAnswer).
Proof.
  apply (fetch_result_throttled_then_timeout Inputs.clock_time Inputs.clock_sleep
           Inputs.capabilities_ok Inputs.always_receipt Inputs.forget_nothing).
  - intros d w0. unfold Inputs.clock_time, Inputs.clock_sleep. lra.
  - intros w0. simpl. unfold Inputs.clock_time. lra.
  - intros tok w0. simpl. unfold Inputs.clock_time. lra.
  - reflexivity.
  - vm_compute. lia.
Defined.

End ResolverFacts.

(** * Further properties of the code *)

(** ** The option parser *)

Module TfoCookieMore.

Import TfoCookie PyFacts TfoCookieFacts.

(** A slice that stops at or before its start, or starts at or beyond the
    end of the sequence, is empty. *)
Lemma slice_empty {A : Type} (l : list A) (start stop : Z) :
  0 <= start -> 0 <= stop ->
  stop <= start \/ Z.of_nat (length l) <= start ->
  slice l start stop = [].
Proof.
  intros Hs He Hor. unfold slice.
  destruct (Z.ltb_spec start 0) as [?|_]; [lia|].
  destruct (Z.ltb_spec stop 0) as [?|_]; [lia|].
  apply drop_ge. rewrite length_take. lia.
Qed.

(** X1.  A segment without options (data offset at most 5) or whose data
    ends with the fixed header gives [None] on the first pass. *)
Theorem tfocookie_no_options (tcp : tcp_hdr) (fuel : nat) :
  0 <= tcp.(doff) ->
  tcp.(doff) <= 5 \/ Z.of_nat (length tcp.(data)) <= 20 ->
  _tfocookie (S fuel) tcp = Ret CNone.
Proof.
  intros Hd Hor. unfold _tfocookie, init.
  rewrite slice_empty by lia. reflexivity.
Qed.

(** A segment of the fixed header alone. *)
Lemma tfocookie_no_options_witness :
  _tfocookie 1 (segment [] [] 40000 7 0) = Ret CNone.
Proof.
  apply (tfocookie_no_options (segment [] [] 40000 7 0) 0).
  - vm_compute. discriminate.
  - left. vm_compute. discriminate.
Defined.

(** Leading NOPs are passed one pass each. *)
Lemma loop_skips_nops (n : nat) (rest : list Z) (fuel : nat) :
  forall k : nat,
    (k <= n)%nat ->
    loop ((n - k) + fuel)
      {| options := OBytes (replicate n 1 ++ rest); cp := Z.of_nat k |} =
    loop fuel {| options := OBytes (replicate n 1 ++ rest); cp := Z.of_nat n |}.
Proof.
  intros k Hk. remember (n - k)%nat as m eqn:Hm.
  revert k Hk Hm. induction m as [|m IH]; intros k Hk Hm.
  - assert (k = n) by lia. by subst k.
  - cbn [Nat.add loop]. rewrite body_nop;
      [|lia|rewrite Nat2Z.id, lookup_app_l by (rewrite length_replicate; lia);
            apply lookup_replicate_2; lia].
    unfold Continue.
    replace (Z.of_nat k + 1) with (Z.of_nat (S k)) by lia.
    apply IH; lia.
Qed.

(** The byte after [n] NOPs. *)
Lemma lookup_after_nops (n : nat) (rest : list Z) (i : nat) :
  (replicate n 1 ++ rest) !! Z.to_nat (Z.of_nat n + Z.of_nat i) = rest !! i.
Proof.
  replace (Z.to_nat (Z.of_nat n + Z.of_nat i)) with (n + i)%nat by lia.
  rewrite lookup_app_r by (rewrite length_replicate; lia).
  rewrite length_replicate. f_equal. lia.
Qed.

(** X2.  NOP padding closed by an End-of-options byte: whatever follows,
    the parser returns [None] after one pass for each NOP and one for the
    End-of-options byte. *)
Theorem tfocookie_nops_then_end (tcp : tcp_hdr) (n : nat) (rest : list Z)
  (fuel : nat) :
  slice tcp.(data) 20 (tcp.(doff) * 4) = replicate n 1 ++ 0 :: rest ->
  _tfocookie (n + S fuel) tcp = Ret CNone.
Proof.
  intros Hopt. unfold _tfocookie, init. rewrite Hopt.
  pose proof (loop_skips_nops n (0 :: rest) (S fuel) 0 ltac:(lia)) as H.
  rewrite Nat.sub_0_r in H. change (Z.of_nat 0) with 0 in H.
  rewrite H. clear H.
  cbn [loop]. unfold body. cbn [options cp opt_empty opt_index].
  destruct (replicate n 1 ++ 0 :: rest) as [|x l] eqn:E.
  { apply (f_equal length) in E. rewrite length_app in E. simpl in E. lia. }
  rewrite <- E.
  rewrite (index_in_range _ (Z.of_nat n) 0); [done|lia|].
  pose proof (lookup_after_nops n (0 :: rest) 0) as Hl.
  rewrite Z.add_0_r in Hl. exact Hl.
Qed.

Lemma tfocookie_nops_then_end_witness :
  _tfocookie (2 + 1) (segment [1; 1; 0; 0] [] 40000 7 0) = Ret CNone.
Proof.
  apply (tfocookie_nops_then_end (segment [1; 1; 0; 0] [] 40000 7 0) 2 [0] 0).
  reflexivity.
Defined.

(** X3.  The registered Fast-Open option as the first option after NOP
    padding, with a length byte other than 2: the parser reports [(0, 34)],
    whatever the length byte says and however many bytes follow it. *)
Theorem tfocookie_nops_then_cookie (tcp : tcp_hdr) (n : nat) (l : Z)
  (rest : list Z) (fuel : nat) :
  slice tcp.(data) 20 (tcp.(doff) * 4) = replicate n 1 ++ 34 :: l :: rest ->
  l <> 2 ->
  _tfocookie (n + S fuel) tcp = Ret (CPair 0 34).
Proof.
  intros Hopt Hl. unfold _tfocookie, init. rewrite Hopt.
  pose proof (loop_skips_nops n (34 :: l :: rest) (S fuel) 0 ltac:(lia)) as H.
  rewrite Nat.sub_0_r in H. change (Z.of_nat 0) with 0 in H.
  rewrite H. clear H.
  cbn [loop].
  rewrite (body_kind34 _ (Z.of_nat n) l); [|lia| |].
  - destruct (Z.eqb_spec l 2); [done|]. reflexivity.
  - pose proof (lookup_after_nops n (34 :: l :: rest) 0) as H0.
    rewrite Z.add_0_r in H0. exact H0.
  - exact (lookup_after_nops n (34 :: l :: rest) 1).
Qed.

(** A declared length of 10 with two bytes of value. *)
Lemma tfocookie_nops_then_cookie_witness :
  _tfocookie (2 + 1) (segment [1; 1; 34; 10; 7; 7; 0; 0] [] 40000 7 0)
    = Ret (CPair 0 34).
Proof.
  apply (tfocookie_nops_then_cookie
           (segment [1; 1; 34; 10; 7; 7; 0; 0] [] 40000 7 0) 2 10 [7; 7; 0; 0] 0).
  - reflexivity.
  - lia.
Defined.

(** X4.  An options region of NOPs only, without End-of-options byte, makes
    the parser read beyond the buffer: the call raises [IndexError]. *)
Theorem tfocookie_nop_padding_raises (tcp : tcp_hdr) (n : nat) (fuel : nat) :
  (0 < n)%nat ->
  slice tcp.(data) 20 (tcp.(doff) * 4) = replicate n 1 ->
  _tfocookie (S n + fuel) tcp = Raise IndexError.
Proof.
  intros Hn Hopt. unfold _tfocookie, init. rewrite Hopt.
  pose proof (nops_only_run_off n fuel 0 Hn ltac:(lia)) as H.
  rewrite Nat.sub_0_r in H. exact H.
Qed.

Lemma tfocookie_nop_padding_raises_witness :
  _tfocookie (S 4 + 0) (segment [1; 1; 1; 1] [] 40000 7 0) = Raise IndexError.
Proof.
  apply (tfocookie_nop_padding_raises (segment [1; 1; 1; 1] [] 40000 7 0) 4 0).
  - lia.
  - reflexivity.
Defined.

(** X5.  An option of a kind other than 0, 1, 34 and 253, in a buffer whose
    first byte is not 254, is never skipped: the parser ends within two
    passes, with [False] or with [IndexError]. *)
Theorem tfocookie_other_kind_ends_scan (b : list Z) (c k : Z) (fuel : nat) :
  0 <= c ->
  b !! Z.to_nat c = Some k ->
  k <> 0 -> k <> 1 -> k <> 34 -> k <> 253 ->
  b !! 0%nat <> Some 254 ->
  loop (2 + fuel) {| options := OBytes b; cp := c |} = Ret CFalse
  \/ loop (2 + fuel) {| options := OBytes b; cp := c |} = Raise IndexError.
Proof. apply generic_kind_never_skipped. Qed.

(** The window-scale option (kind 3, length 3) and a NOP. *)
Lemma tfocookie_other_kind_ends_scan_witness :
  loop (2 + 0) {| options := OBytes [3; 3; 7; 1]; cp := 0 |} = Ret CFalse
  \/ loop (2 + 0) {| options := OBytes [3; 3; 7; 1]; cp := 0 |} = Raise IndexError.
Proof.
  apply (tfocookie_other_kind_ends_scan [3; 3; 7; 1] 0 3 0);
    first [ lia | reflexivity | discriminate ].
Defined.

(** X6.  The experimental option 253 with the magic and a length byte of 0:
    the scan position does not move and the loop never ends. *)
Theorem tfocookie_zero_length_253_hangs (b : list Z) (c : Z) (fuel : nat) :
  0 <= c ->
  b !! Z.to_nat c = Some 253 ->
  b !! Z.to_nat (c + 1) = Some 0 ->
  b !! Z.to_nat (c + 2) = Some 249 ->
  b !! Z.to_nat (c + 3) = Some 137 ->
  loop fuel {| options := OBytes b; cp := c |} = OutOfFuel.
Proof.
  intros Hc Hk Hl Ha Hb. apply loop_stuck.
  rewrite (body_kind253_magic b c 0) by done. simpl. by rewrite Z.add_0_r.
Qed.

Lemma tfocookie_zero_length_253_hangs_witness :
  loop 1000 {| options := OBytes [1; 253; 0; 249; 137; 0; 0; 0]; cp := 1 |}
    = OutOfFuel.
Proof.
  apply (tfocookie_zero_length_253_hangs [1; 253; 0; 249; 137; 0; 0; 0] 1 1000);
    first [ lia | reflexivity ].
Defined.

(** X7.  When the first byte of the options is 254, an option at the scan
    position that is not End-of-options, NOP or kind 34, and whose bytes at
    offsets 2 and 3 are not the magic, is neither skipped nor reported: the
    state does not change and the loop never ends. *)
Theorem tfocookie_first_byte_254_hangs (b : list Z) (c k x y : Z) (fuel : nat) :
  0 <= c ->
  b !! 0%nat = Some 254 ->
  b !! Z.to_nat c = Some k ->
  k <> 0 -> k <> 1 -> k <> 34 ->
  b !! Z.to_nat (c + 2) = Some x ->
  b !! Z.to_nat (c + 3) = Some y ->
  (x, y) <> (249, 137) ->
  loop fuel {| options := OBytes b; cp := c |} = OutOfFuel.
Proof.
  intros Hc H0 Hk Hk0 Hk1 Hk34 Hx Hy Hxy. apply loop_stuck.
  assert (Hm : (x =? 249) && (y =? 137) = false).
  { apply andb_false_iff.
    destruct (Z.eqb_spec x 249) as [->|]; [|by left].
    destruct (Z.eqb_spec y 137) as [->|]; [|by right]. done. }
  assert (H254 : kind254_rule {| options := OBytes b; cp := c |} =
                 Continue {| options := OBytes b; cp := c |}).
  { unfold kind254_rule. cbn [options cp opt_index].
    rewrite (index_in_range b 0 254) by (lia || done). cbn [bind Z.eqb].
    rewrite (index_in_range b (c + 2) x) by (lia || done). cbn [bind].
    rewrite (index_in_range b (c + 3) y) by (lia || done). cbn [bind].
    by rewrite Hm. }
  unfold body. cbn [options cp opt_empty opt_index].
  destruct b as [|z b'] eqn:Eb; [done|]. rewrite <- Eb in *.
  rewrite (index_in_range b c k) by done. cbn [bind].
  destruct (Z.eqb_spec k 0); [done|].
  destruct (Z.eqb_spec k 1); [done|].
  destruct (Z.eqb_spec k 34); [done|].
  destruct (Z.eqb_spec k 253) as [->|_]; [|exact H254].
  rewrite (index_in_range b (c + 2) x) by (lia || done). cbn [bind].
  rewrite (index_in_range b (c + 3) y) by (lia || done). cbn [bind].
  rewrite Hm. exact H254.
Qed.

(** The experimental option 254 with a wrong tag. *)
Lemma tfocookie_first_byte_254_hangs_witness :
  loop 1000 {| options := OBytes [254; 4; 249; 138]; cp := 0 |} = OutOfFuel.
Proof.
  apply (tfocookie_first_byte_254_hangs [254; 4; 249; 138] 0 254 249 138 1000);
    first [ lia | reflexivity | discriminate ].
Defined.

(** What one pass returns is [None], [False], or a pair [(0, k)] with [k]
    one of the three Fast-Open kinds. *)
Lemma body_returns (s : state) (c : cookie) :
  body s = Return c ->
  c = CNone \/ c = CFalse \/ c = CPair 0 34 \/ c = CPair 0 253 \/ c = CPair 0 254.
Proof.
  unfold body, kind254_rule, generic_rule, Return, Continue.
  intros H.
  repeat match type of H with
         | context [if ?b then _ else _] => destruct b
         | context [bind ?r _] => destruct r; cbn [bind] in H
         end; try discriminate; injection H as <-; tauto.
Qed.

(** X8.  [_tfocookie] reports a cookie only as [(0, 34)], [(0, 253)] or
    [(0, 254)]: these are the only values it returns that count as true in
    [bool(_tfocookie(tcp))]. *)
Theorem tfocookie_cookie_kinds (fuel : nat) (tcp : tcp_hdr) (c : cookie) :
  _tfocookie fuel tcp = Ret c ->
  cookie_truthy c = true ->
  c = CPair 0 34 \/ c = CPair 0 253 \/ c = CPair 0 254.
Proof.
  unfold _tfocookie. generalize (init tcp) as s.
  induction fuel as [|fuel IH]; intros s Hr Ht; [discriminate|].
  cbn [loop] in Hr.
  destruct (body s) as [[s'|c']|e|] eqn:Hb; try discriminate.
  - by apply (IH s').
  - injection Hr as ->.
    destruct (body_returns s c Hb) as [->|[->|H]]; try discriminate. exact H.
Qed.

Lemma tfocookie_cookie_kinds_witness :
  CPair 0 34 = CPair 0 34 \/ CPair 0 34 = CPair 0 253 \/ CPair 0 34 = CPair 0 254.
Proof.
  apply (tfocookie_cookie_kinds 1 Inputs.cookie_first (CPair 0 34));
    reflexivity.
Defined.

End TfoCookieMore.

(** ** The Fast-Open state machine *)

Module TfoChainMore.

Import TfoCookie TfoChain Inputs TfoChainFacts.

(** X9.  An incoming segment that acknowledges [S + L + 1], for a context
    with recorded sequence number [S > 0] and length [L], sets [tfoworking]
    to 2, changes nothing else, and stops the tracking, whatever options the
    segment carries, as long as the option parser returns on them. *)
Theorem tfoworking_ack_stops_tracking (fuel : nat) (rec : flowctx) (tcp : tcp_hdr)
  (rev : bool) (p S L : Z) (c : cookie) :
  rec !! "sp" = Some (VInt p) ->
  p <> tcp.(src_port) ->
  _tfocookie fuel tcp = Ret c ->
  rec !! "tfo_seq" = Some (VInt S) ->
  0 < S ->
  rec !! "tfo_len" = Some (VInt L) ->
  tcp.(ack_nbr) = S + L + 1 ->
  tfoworking fuel rec tcp rev = Ret (<["tfoworking" := VInt 2]> rec, false).
Proof. apply tfoworking_acked. Qed.

Lemma tfoworking_ack_stops_tracking_witness :
  tfoworking 5 (recorded 1000 4) (incoming_ack 1005) true =
    Ret (<["tfoworking" := VInt 2]> (recorded 1000 4), false).
Proof.
  apply (tfoworking_ack_stops_tracking 5 (recorded 1000 4) (incoming_ack 1005)
           true 40000 1000 4 CNone);
    first [ reflexivity | lia | (vm_compute; discriminate) ].
Defined.

(** The first test of [tfoworking], line 93. *)
Lemma tfoworking_untracked (fuel : nat) (rec : flowctx)
  (tcp : tcp_hdr) (rev : bool) (sp : pyval) (S : Z) (c : cookie) :
  rec !! "sp" = Some sp ->
  _tfocookie fuel tcp = Ret c ->
  cookie_truthy c = false ->
  rec !! "tfo_seq" = Some (VInt S) ->
  S < 0 ->
  tfoworking fuel rec tcp rev = Ret (rec, true).
Proof.
  intros Hsp Hc Hno Hs Hneg. unfold tfoworking, getitem.
  rewrite Hsp. cbn [bind]. rewrite Hc. cbn [bind]. rewrite Hs. cbn [bind].
  unfold py_lt. cbn [as_int bind]. rewrite Hno.
  replace (S <? 0) with true by lia. done.
Qed.

(** X10.  While no sequence number is recorded ([tfo_seq] negative), a
    segment in which the parser finds no cookie leaves the context as it is
    and keeps the flow tracked, in either direction and with or without
    payload. *)
Theorem tfoworking_ignores_plain_segments (fuel : nat) (rec : flowctx)
  (tcp : tcp_hdr) (rev : bool) (sp : pyval) (S : Z) (c : cookie) :
  rec !! "sp" = Some sp ->
  _tfocookie fuel tcp = Ret c ->
  cookie_truthy c = false ->
  rec !! "tfo_seq" = Some (VInt S) ->
  S < 0 ->
  tfoworking fuel rec tcp rev = Ret (rec, true).
Proof. apply tfoworking_untracked. Qed.

Lemma tfoworking_ignores_plain_segments_witness :
  tfoworking 5 fresh_ctx (outgoing_data 1000) false = Ret (fresh_ctx, true).
Proof.
  apply (tfoworking_ignores_plain_segments 5 fresh_ctx (outgoing_data 1000) false
           (VInt 40000) (-1000) CNone);
    first [ reflexivity | lia ].
Defined.

(** X11.  A flow context fresh from [tfosetup] stays as it is under every
    segment without cookie: [tfosetup] and [tfoworking] compose to the
    identity on flows that do not use Fast-Open. *)
Theorem tfosetup_then_plain_segment (fuel : nat) (rec : flowctx)
  (tcp : tcp_hdr) (rev : bool) (sp : pyval) (c : cookie) :
  rec !! "sp" = Some sp ->
  _tfocookie fuel tcp = Ret c ->
  cookie_truthy c = false ->
  tfoworking fuel (tfosetup rec).1 tcp rev = Ret ((tfosetup rec).1, true).
Proof.
  intros Hsp Hc Hno.
  apply (tfoworking_untracked fuel _ tcp rev sp (-1000) c);
    try done.
  - unfold tfosetup. cbn [fst]. by rewrite !lookup_insert_ne.
  - unfold tfosetup. cbn [fst]. rewrite !lookup_insert_ne by done.
    apply lookup_insert_eq.
Qed.

Lemma tfosetup_then_plain_segment_witness :
  tfoworking 5 (tfosetup {[ "sp" := VInt 40000 ]}).1 (incoming_ack 1) true =
    Ret ((tfosetup {[ "sp" := VInt 40000 ]}).1, true).
Proof.
  apply (tfosetup_then_plain_segment 5 {[ "sp" := VInt 40000 ]} (incoming_ack 1)
           true (VInt 40000) CNone);
    reflexivity.
Defined.

(** X12.  An outgoing segment with payload in which the parser finds a
    cookie is recorded, whatever was recorded before: [tfo_seq] becomes its
    sequence number, [tfo_len] its payload length, [tfoworking] 1, and the
    flow stays tracked. *)
Theorem tfoworking_records_cookie_segment (fuel : nat) (rec : flowctx)
  (tcp : tcp_hdr) (rev : bool) (S : Z) (c : cookie) :
  rec !! "sp" = Some (VInt tcp.(src_port)) ->
  _tfocookie fuel tcp = Ret c ->
  cookie_truthy c = true ->
  rec !! "tfo_seq" = Some (VInt S) ->
  0 < Z.of_nat (length tcp.(data)) - tcp.(doff) * 4 ->
  tfoworking fuel rec tcp rev =
    Ret (<["tfoworking" := VInt 1]>
           (<["tfo_len" := VInt (Z.of_nat (length tcp.(data)) - tcp.(doff) * 4)]>
              (<["tfo_seq" := VInt tcp.(seq_nbr)]> rec)), true).
Proof.
  intros Hsp Hc Hyes Hs Hdata. unfold tfoworking, getitem.
  rewrite Hsp. cbn [bind]. rewrite Hc. cbn [bind]. rewrite Hs. cbn [bind].
  unfold py_lt. cbn [as_int bind py_eq]. rewrite Hyes, Z.eqb_refl.
  rewrite andb_false_r.
  replace (0 <? Z.of_nat (length tcp.(data)) - tcp.(doff) * 4) with true by lia.
  done.
Qed.

Lemma tfoworking_records_cookie_segment_witness :
  tfoworking 5 (recorded 77 9) (syn_with_cookie 1000) false =
    Ret (<["tfoworking" := VInt 1]>
           (<["tfo_len" := VInt (Z.of_nat (length (syn_with_cookie 1000).(data))
                                 - (syn_with_cookie 1000).(doff) * 4)]>
              (<["tfo_seq" := VInt (syn_with_cookie 1000).(seq_nbr)]>
                 (recorded 77 9))), true).
Proof.
  apply (tfoworking_records_cookie_segment 5 (recorded 77 9) (syn_with_cookie 1000)
           false 77 (CPair 0 34));
    first [ reflexivity | (vm_compute; reflexivity) ].
Defined.

(** X13.  [tfoworking] stops the tracking of a flow only on a segment that
    does not come from the flow's source port, and then the only change to
    the context is [tfoworking = 2]: an outgoing segment never ends the
    tracking. *)
Theorem tfoworking_stops_only_on_incoming (fuel : nat) (rec rec' : flowctx)
  (tcp : tcp_hdr) (rev : bool) :
  tfoworking fuel rec tcp rev = Ret (rec', false) ->
  rec' = <["tfoworking" := VInt 2]> rec
  /\ exists sp, rec !! "sp" = Some sp /\ py_eq sp (VInt tcp.(src_port)) = false.
Proof.
  unfold tfoworking, getitem. intros H.
  destruct (rec !! "sp") as [sp|]; cbn [bind] in H; [|discriminate].
  destruct (_tfocookie fuel tcp) as [c| |]; cbn [bind] in H; try discriminate.
  destruct (rec !! "tfo_seq") as [s|]; cbn [bind] in H; [|discriminate].
  destruct (py_lt s 0) as [u| |]; cbn [bind] in H; try discriminate.
  destruct (u && negb (cookie_truthy c)); [discriminate|].
  destruct (cookie_truthy c && (0 <? _) && _); [discriminate|].
  destruct (py_gt s 0) as [g| |]; cbn [bind] in H; try discriminate.
  destruct (rec !! "tfo_len") as [l|]; cbn [bind] in H; [|discriminate].
  destruct (py_add s l) as [sum| |]; cbn [bind] in H; try discriminate.
  destruct (py_add sum (VInt 1)) as [e| |]; cbn [bind] in H; try discriminate.
  destruct (py_eq sp (VInt (src_port tcp))) eqn:Hout; cbn [negb andb] in H.
  - destruct (py_add s (VInt 1)) as [n| |]; cbn [bind] in H; try discriminate.
    destruct (_ && _); discriminate.
  - destruct (g && py_eq (VInt (ack_nbr tcp)) e).
    + injection H as <-. split; [done|]. by exists sp.
    + destruct (py_add s (VInt 1)) as [n| |]; cbn [bind] in H; discriminate.
Qed.

Lemma tfoworking_stops_only_on_incoming_witness :
  <["tfoworking" := VInt 2]> (recorded 1000 4)
    = <["tfoworking" := VInt 2]> (recorded 1000 4)
  /\ exists sp, recorded 1000 4 !! "sp" = Some sp
       /\ py_eq sp (VInt (incoming_ack 1005).(src_port)) = false.
Proof.
  apply (tfoworking_stops_only_on_incoming 5 (recorded 1000 4) _
           (incoming_ack 1005) true).
  vm_compute. reflexivity.
Defined.

End TfoChainMore.

(** ** [TFOSpider.connect] and [TFOSpider.post_connect] *)

Module ConnectMore.

Import Connect PostConnect Inputs PyFacts ConnectFacts.

Section WithSockets.

Context {world sock : Type}.
Variable api : socket_api world sock.

(** X14.  Configuration 0 with a job whose first field is a string: when
    sockets can be created, [getsockname] does not raise, and [settimeout]
    and [connect] raise nothing but [OSError]s, the call returns a
    [Connection] in one of the three states. *)
Theorem connect_regular_returns_outcome (t : Z) (h : string) (p : pyval)
  (rest : list pyval) (w : world) :
  (forall af w0, exists s w1, api.(socket_new) af w0 = (Ret s, w1)) ->
  (forall s0 w0, exists q w1, api.(getsockname_port) s0 w0 = (Ret q, w1)) ->
  (forall s0 w0, (exists w1, api.(settimeout) s0 t w0 = (Ret tt, w1))
     \/ exists e w1, api.(settimeout) s0 t w0 = (Raise e, w1) /\ is_OSError e = true) ->
  (forall s0 w0, (exists w1, api.(sock_connect) s0 (VStr h) p w0 = (Ret tt, w1))
     \/ exists e w1, api.(sock_connect) s0 (VStr h) p w0 = (Raise e, w1)
                    /\ is_OSError e = true) ->
  exists c w',
    connect api t (VStr h :: p :: rest) 0 w = (Ret (Some c), w')
    /\ (c.(state) = CONN_OK \/ c.(state) = CONN_FAILED \/ c.(state) = CONN_TIMEOUT).
Proof. apply connect_regular_classified. Qed.

(** The cookie request leaves the local [sock] bound or not, and never
    raises. *)
Lemma request_cookie_bound (af : family) (job : list pyval) (m : string) (w : world) :
  (forall af0 w0, exists s w1, api.(socket_new) af0 w0 = (Ret s, w1)) ->
  exists s w', request_cookie api af job m w = (Some s, w').
Proof.
  intros Hnew. unfold request_cookie.
  destruct (Hnew af w) as (s & w1 & ->).
  destruct (iobind _ _ w1) as [r w2]. by exists s, w2.
Qed.

(** X15.  Configuration 1 with a job of at least three fields whose first is
    a string: when sockets can be created, [getsockname] does not raise and
    [sendto] raises nothing but [OSError]s, the call returns a [Connection]
    in one of the three states, whatever the cookie request of lines
    184-189 did. *)
Theorem connect_tfo_returns_outcome (t : Z) (h : string) (p host : pyval)
  (rest : list pyval) (w : world) :
  (forall af w0, exists s w1, api.(socket_new) af w0 = (Ret s, w1)) ->
  (forall s0 w0, exists q w1, api.(getsockname_port) s0 w0 = (Ret q, w1)) ->
  (forall s0 m w0,
     (exists w1, api.(sendto_fastopen) s0 m (VStr h) p w0 = (Ret tt, w1))
     \/ exists e w1, api.(sendto_fastopen) s0 m (VStr h) p w0 = (Raise e, w1)
                    /\ is_OSError e = true) ->
  exists c w',
    connect api t (VStr h :: p :: host :: rest) 1 w = (Ret (Some c), w')
    /\ (c.(state) = CONN_OK \/ c.(state) = CONN_FAILED \/ c.(state) = CONN_TIMEOUT).
Proof.
  intros Hnew Hname Hsend.
  set (job := VStr h :: p :: host :: rest).
  unfold connect, iobind at 1 2, lift.
  change (Py.index job 0) with (@Ret pyval (VStr h)).
  cbn [count_method Z.eqb].
  set (af := if 1 <=? count_colon h then AF_INET6 else AF_INET).
  unfold iobind at 1, connect_tfo, iobind at 1, lift.
  rewrite (index_in_range job 2 host) by (lia || done).
  set (m := ("GET / HTTP/1.1" ++ _)%string).
  cbn [Pos.eqb]. cbv beta.
  destruct (request_cookie_bound af job m w Hnew) as (s0 & w0 & ->).
  unfold use_cookie.
  destruct (Hnew af w0) as (s & w1 & ->).
  unfold try_except, iobind at 1, lift.
  change (Py.index job 0) with (@Ret pyval (VStr h)).
  unfold iobind at 1.
  rewrite (index_in_range job 1 p) by (lia || done).
  unfold iobind at 1.
  destruct (Hsend s m w1) as [(w2 & ->) | (e & w2 & -> & He)].
  - destruct (make_connection_state api s CONN_OK w2 Hname) as (c & w' & -> & Hc).
    exists c, w'. unfold ret. split; [done|]. by left.
  - rewrite He. unfold classify.
    destruct (is_TimeoutError e).
    + destruct (make_connection_state api s CONN_TIMEOUT w2 Hname)
        as (c & w' & -> & Hc).
      exists c, w'. unfold ret. split; [done|]. by right; right.
    + destruct (make_connection_state api s CONN_FAILED w2 Hname)
        as (c & w' & -> & Hc).
      exists c, w'. unfold ret. split; [done|]. by right; left.
Qed.

(** X16.  A configuration other than 0 and 1 makes [connect] return [None]
    without touching a socket. *)
Theorem connect_unknown_config_returns_none (t : Z) (h : string)
  (rest : list pyval) (config : Z) (w : world) :
  config <> 0 -> config <> 1 ->
  connect api t (VStr h :: rest) config w = (Ret None, w).
Proof. apply connect_other_config. Qed.

Variable sock_shutdown : sock -> io world unit.

(** X17.  For a job of at least four fields [post_connect] returns the
    active record whatever [shutdown] and [close] do: their exceptions are
    dropped, [close] is called after [shutdown] in every case, and the
    record's [connstate] is true exactly when the connection state is
    [CONN_OK]. *)
Theorem post_connect_returns_record (j0 j1 j2 j3 : pyval) (rest : list pyval)
  (conn : Connection sock) (config : Z) (w : world) :
  post_connect api sock_shutdown (j0 :: j1 :: j2 :: j3 :: rest) conn config w =
    (Ret {| Merge.ip := j0; Merge.rport := j1; Merge.port := VInt conn.(port);
            Merge.host := j2; Merge.tfostate := VInt config;
            Merge.connstate := VBool (conn.(state) =? CONN_OK);
            Merge.rank := j3 |},
     (api.(sock_close) conn.(client)
        (sock_shutdown conn.(client) w).2).2).
Proof.
  unfold post_connect, active_record.
  set (job := j0 :: j1 :: j2 :: j3 :: rest).
  rewrite (index_in_range job 0 j0) by (lia || done).
  rewrite (index_in_range job 1 j1) by (lia || done).
  rewrite (index_in_range job 2 j2) by (lia || done).
  rewrite (index_in_range job 3 j3) by (lia || done).
  reflexivity.
Qed.

(** X18.  For a job of fewer than four fields [post_connect] raises
    [IndexError] and leaves the world as it was: the connection is neither
    shut down nor closed. *)
Theorem post_connect_short_job_leaks (job : list pyval)
  (conn : Connection sock) (config : Z) (w : world) :
  (length job < 4)%nat ->
  post_connect api sock_shutdown job conn config w = (Raise IndexError, w).
Proof.
  intros Hlen. unfold post_connect, active_record.
  destruct job as [|j0 [|j1 [|j2 [|j3 rest]]]]; simpl in Hlen; try lia;
    reflexivity.
Qed.

End WithSockets.

Lemma connect_regular_returns_outcome_witness :
  exists c w',
    connect refused 10 job_with_host 0 0%nat = (Ret (Some c), w')
    /\ (c.(state) = CONN_OK \/ c.(state) = CONN_FAILED \/ c.(state) = CONN_TIMEOUT).
Proof.
  apply (connect_regular_returns_outcome refused 10 "203.0.113.10" (VInt 80)
           [VStr "example.com"; VInt 1] 0%nat).
  - intros af w0. by eexists _, _.
  - intros s0 w0. by eexists _, _.
  - intros s0 w0. left. by eexists.
  - intros s0 w0. right. eexists _, _. split; reflexivity.
Defined.

Lemma connect_tfo_returns_outcome_witness :
  exists c w',
    connect refused 10 job_with_host 1 0%nat = (Ret (Some c), w')
    /\ (c.(state) = CONN_OK \/ c.(state) = CONN_FAILED \/ c.(state) = CONN_TIMEOUT).
Proof.
  apply (connect_tfo_returns_outcome refused 10 "203.0.113.10" (VInt 80)
           (VStr "example.com") [VInt 1] 0%nat).
  - intros af w0. by eexists _, _.
  - intros s0 w0. by eexists _, _.
  - intros s0 m w0. right. eexists _, _. split; reflexivity.
Defined.

Lemma connect_unknown_config_returns_none_witness :
  connect refused 10 job_with_host 2 0%nat = (Ret None, 0%nat).
Proof.
  apply (connect_unknown_config_returns_none refused 10 "203.0.113.10"
           [VInt 80; VStr "example.com"; VInt 1] 2 0%nat); lia.
Defined.

Lemma post_connect_short_job_leaks_witness :
  post_connect refused (fun _ w => (Raise OSError, w)) job_without_host
    {| client := 0%nat; port := 40000; state := CONN_OK |} 0 1%nat
    = (Raise IndexError, 1%nat).
Proof.
  apply (post_connect_short_job_leaks refused (fun _ w => (Raise OSError, w))
           job_without_host).
  simpl. lia.
Defined.

End ConnectMore.

(** ** [TFOSpider.merge] *)

Module MergeMore.

Import Merge.

(** X19.  With a flow, the merged record is the flow's dictionary with
    [connstate], [host], [rank] and [tfostate] taken from the active record
    and [observed] set to [True]; every other entry of the flow, its
    counters among them, is carried over unchanged. *)
Theorem merge_keeps_flow_fields (outqueue : list (gmap string pyval))
  (d : gmap string pyval) (res : SpiderRecord) :
  exists m,
    merge outqueue (Flow d) res = outqueue ++ [m]
    /\ m !! "connstate" = Some res.(connstate)
    /\ m !! "host" = Some res.(host)
    /\ m !! "rank" = Some res.(rank)
    /\ m !! "tfostate" = Some res.(tfostate)
    /\ m !! "observed" = Some (VBool true)
    /\ forall k, k ∉ ({[ "connstate"; "host"; "rank"; "tfostate"; "observed" ]}
                        : gset string) -> m !! k = d !! k.
Proof.
  exists (merged (Flow d) res). split; [done|]. unfold merged.
  repeat split.
  - rewrite !lookup_insert_ne by done. apply lookup_insert_eq.
  - rewrite !lookup_insert_ne by done. apply lookup_insert_eq.
  - rewrite !lookup_insert_ne by done. apply lookup_insert_eq.
  - rewrite !lookup_insert_ne by done. apply lookup_insert_eq.
  - apply lookup_insert_eq.
  - intros k Hk. rewrite !lookup_insert_ne; [done|set_solver..].
Qed.

End MergeMore.

(** ** [EcnSpider2] *)

Module EcnMore.

Import Ecn EcnFacts.

(** X20.  [tupleize_flow] returns [None] for every flow dictionary and every
    pair of local addresses: it never raises and never returns a
    [FlowRecord]. *)
Theorem tupleize_flow_never_exports (self : spider) (flow : gmap string pyval) :
  tupleize_flow self flow = Ret None.
Proof. apply tupleize_flow_always_none. Qed.

(** X21.  The template of [qof_config] names [lastSynTcpFlags], the export
    of lines 160-175 reads [lastSynTCPFlags]: on a flow that carries no
    other keys than those of the template, the export raises [KeyError]. *)
Theorem export_misses_template_key (a : pyval) (flow : gmap string pyval) :
  dom flow ⊆ list_to_set EcnConfig.template ->
  export a flow = Raise KeyError.
Proof.
  intros Hdom.
  assert (Hnone : flow !! "lastSynTCPFlags" = None).
  { apply not_elem_of_dom. intros Hin. apply Hdom in Hin.
    revert Hin. vm_compute. set_solver. }
  unfold export, getitem. rewrite Hnone.
  destruct (flow !! "initialTCPFlags"); reflexivity.
Qed.

Lemma export_misses_template_key_witness :
  export (VStr "203.0.113.10")
    (list_to_map [ ("initialTCPFlags", VInt 2); ("lastSynTcpFlags", VInt 2);
                   ("qofTcpCharacteristics", VInt 0) ])
    = Raise KeyError.
Proof.
  apply export_misses_template_key.
  apply (bool_decide_unpack _). vm_compute. reflexivity.
Defined.

End EcnMore.

(** ** The resolver clients *)

Module ResolverMore.

Import Resolver Request ResolverFacts.

Section TakeMore.

Context {A : Type}.

Lemma consume_prefix (fuel : nat) :
  forall (g : take_gen A) (ys : list A) (r : result unit),
    consume fuel g = (ys, r) ->
    ys `prefix_of` g.(it) /\ (length ys <= Z.to_nat (g.(count) - g.(index)))%nat.
Proof.
  induction fuel as [|fuel IH]; intros g ys r H.
  - injection H as <- <-. split; [apply prefix_nil|simpl; lia].
  - cbn [consume] in H. unfold resume in H.
    destruct (Z.ltb_spec g.(index) g.(count)) as [Hlt|Hge].
    + destruct (Z.leb_spec g.(count) g.(index)) as [?|_]; [lia|].
      destruct g.(it) as [|x rest] eqn:Hit.
      * injection H as <- <-. split; [apply prefix_nil|simpl; lia].
      * destruct (consume fuel _) as [l r'] eqn:Hc.
        injection H as <- <-.
        apply IH in Hc as [Hp Hl]. cbn [it count index] in Hp, Hl.
        split; [by apply prefix_cons|]. simpl. lia.
    + injection H as <- <-. split; [apply prefix_nil|simpl; lia].
Qed.

(** X22.  However far the generator is run, what [take(count, iterable)]
    has yielded is a prefix of the iterable of at most [count] elements:
    "at most count elements", as the docstring says; for a negative [count]
    nothing is yielded. *)
Theorem take_yields_at_most_count (fuel : nat) (count : Z) (iterable : list A)
  (ys : list A) (r : result unit) :
  consume fuel (take count iterable) = (ys, r) ->
  ys `prefix_of` iterable /\ (length ys <= Z.to_nat count)%nat.
Proof.
  intros H. apply consume_prefix in H. unfold take in H. cbn in H.
  by rewrite Z.sub_0_r in H.
Qed.

End TakeMore.

Lemma take_yields_at_most_count_witness :
  [10; 20] `prefix_of` [10; 20; 30] /\ (length [10; 20] <= Z.to_nat 2)%nat.
Proof.
  apply (take_yields_at_most_count 1000 2 [10; 20; 30] [10; 20] (Ret tt)).
  reflexivity.
Defined.

Section FetchMore.

Context {world row token : Type}.

Variable time : world -> Q.
Variable sleep : Q -> world -> world.
Variable retrieve_capabilities : world -> called unit * world.
Variable result_for : token -> world -> called (poll row) * world.
Variable forget : token -> world -> world.

Hypothesis sleep_advances :
  forall d w0, (time w0 + d <= time (sleep d w0))%Q.
Hypothesis capabilities_take_time :
  forall w0, (time w0 <= time (retrieve_capabilities w0).2)%Q.
Hypothesis polls_take_time :
  forall tok w0, (time w0 <= time (result_for tok w0).2)%Q.

Local Abbreviation poll_loop :=
  (poll_loop time sleep retrieve_capabilities result_for forget).

(** The refresh does not turn the clock back. *)
Lemma refresh_clock (c : client world) :
  (time c.(w) <= time (refresh time retrieve_capabilities c).(w))%Q.
Proof.
  apply (refresh_spec time retrieve_capabilities capabilities_take_time c).
Qed.



End FetchMore.


(** X24.  The comprehension over the rows gives a list exactly when every
    row has both keys, and the list then holds, row by row and in order, the
    values at ['destination.' + ipv] and ['destination.port']. *)
Theorem pairs_characterised (ipv : string) (rows : list (gmap string pyval))
  (l : list (pyval * pyval)) :
  pairs ipv rows = Ret l <->
  Forall2 (fun row ap => row !! ("destination." ++ ipv)%string = Some ap.1
                         /\ row !! "destination.port" = Some ap.2) rows l.
Proof.
  revert l. induction rows as [|row rows IH]; intros l.
  - simpl. split.
    + intros [= <-]. constructor.
    + intros H. by inversion H.
  - cbn [pairs]. unfold getitem. split.
    + intros H.
      destruct (row !! ("destination." ++ ipv)%string) as [a|] eqn:Ha;
        cbn [bind] in H; [|discriminate].
      destruct (row !! "destination.port") as [p|] eqn:Hp;
        cbn [bind] in H; [|discriminate].
      destruct (pairs ipv rows) as [l'| |] eqn:Hl; cbn [bind] in H;
        try discriminate.
      injection H as <-. constructor; [done|]. by apply IH.
    + intros H. inversion H as [|? [a p] ? l' [Ha Hp] Hrest]; subst.
      simpl in Ha, Hp. rewrite Ha, Hp. cbn [bind].
      apply IH in Hrest. rewrite Hrest. done.
Qed.

Section RequestMore.

Context {world token url : Type}.

Variable time : world -> Q.
Variable sleep : Q -> world -> world.
Variable retrieve_capabilities : world -> called unit * world.
Variable result_for : token -> world -> called (poll (gmap string pyval)) * world.
Variable forget : token -> world -> world.
Variable invoke_capability :
  string -> string -> params url -> world -> called (option token) * world.

Local Abbreviation btdht_request :=
  (btdht_request time sleep retrieve_capabilities result_for forget
     invoke_capability).
Local Abbreviation web_request :=
  (web_request time sleep retrieve_capabilities result_for forget
     invoke_capability).

(** X25.  When the resolver accepts the invocation and answers the first
    poll with an mPlane Exception, [_fetch_result] returns [None] and the
    comprehension of line 104 raises [TypeError]: the caller of [request]
    gets neither addresses nor the resolver's exception. *)
Theorem btdht_request_exception_is_type_error (fuel : nat) (count : Z)
  (ipv when : string) (request_timeout : Z) (c : client world)
  (tok : token) (w1 : world) :
  0 < request_timeout ->
  invoke_capability ("btdhtresolver-" ++ ipv)%string when (Count count) c.(w)
    = (Returns (Some tok), w1) ->
  (forall w0, exists w', result_for tok w0 = (Returns PException, w')) ->
  (btdht_request (S fuel) count ipv when request_timeout c).1 = Throws TypeError.
Proof.
  intros HT Hinv Hexc. unfold Request.btdht_request. rewrite Hinv.
  unfold fetch_pairs, _fetch_result. cbn [Resolver.poll_loop].
  replace (0 <? request_timeout) with true by lia.
  unfold check. cbn [w log].
  destruct (Hexc (w (refresh time retrieve_capabilities (with_world c w1))))
    as (w' & ->).
  reflexivity.
Qed.

(** X26.  [WebResolverClient.request] never changes [self.queued]: [take]
    reads the first urls without removing them, so the next request sends
    the same urls again. *)
Theorem web_request_keeps_queue (fuel : nat) (count : Z) (ipv when : string)
  (request_timeout : Z) (wc : web_client world url) :
  (web_request fuel count ipv when request_timeout wc).2.(queued) = wc.(queued).
Proof.
  unfold Request.web_request.
  destruct (py_list fuel (take count (queued wc))) as [urls|e|]; [|done..].
  destruct (invoke_capability _ _ _ _) as [[tok|e] w']; [|done].
  destruct (fetch_pairs _ _ _ _ _ _ _ _ _ _) as [o c']. done.
Qed.

(** X27.  When fewer urls are queued than [count] asks for, the request
    raises the generator's [RuntimeError] before anything is sent to the
    resolver: the client and its queue are as before. *)
Theorem web_request_short_queue (fuel : nat) (count : Z) (ipv when : string)
  (request_timeout : Z) (wc : web_client world url) :
  Z.of_nat (length wc.(queued)) < count ->
  (length wc.(queued) < fuel)%nat ->
  web_request fuel count ipv when request_timeout wc = (Throws RuntimeError, wc).
Proof.
  intros Hshort Hfuel. unfold Request.web_request, py_list, take.
  rewrite consume_short by lia. done.
Qed.

End RequestMore.

Lemma btdht_request_exception_is_type_error_witness :
  (btdht_request Inputs.clock_time Inputs.clock_sleep Inputs.capabilities_ok
     Scenarios.always_exception Inputs.forget_nothing Scenarios.accept_all
     (S 0) 10 "ip4" "now ... future" 30 Inputs.new_client).1 = Throws TypeError.
Proof.
  apply (btdht_request_exception_is_type_error Inputs.clock_time
           Inputs.clock_sleep Inputs.capabilities_ok Scenarios.always_exception
           Inputs.forget_nothing Scenarios.accept_all 0 10 "ip4" "now ... future"
           30 Inputs.new_client tt 100%Q).
  - lia.
  - reflexivity.
  - intros w0. by eexists.
Defined.

Lemma web_request_short_queue_witness :
  web_request Inputs.clock_time Inputs.clock_sleep Inputs.capabilities_ok
    Scenarios.always_exception Inputs.forget_nothing Scenarios.accept_all
    2 3 "ip4" "now ... future" 30 Scenarios.one_url
    = (Throws RuntimeError, Scenarios.one_url).
Proof.
  apply (web_request_short_queue Inputs.clock_time Inputs.clock_sleep
           Inputs.capabilities_ok Scenarios.always_exception
           Inputs.forget_nothing Scenarios.accept_all).
  - simpl. lia.
  - simpl. lia.
Defined.

End ResolverMore.

(** ** The job feeder and the output loop *)

Module RunMore.

Import Run.

Section FeederMore.

Variable py_int : string -> option Z.

Lemma feed_good (rows : list (list string)) :
  forall (js : list (list pyval)) (sp : spider),
    Forall2 (fun row job => convert py_int row = inr job) rows js ->
    feed py_int rows sp =
      (Fed, {| jobs := sp.(jobs) ++ js; shut_down := sp.(shut_down) |}).
Proof.
  induction rows as [|row rows IH]; intros js sp H.
  - inversion H; subst. simpl. rewrite app_nil_r. by destruct sp.
  - inversion H as [|? job ? js' Hrow Hrest]; subst.
    cbn [feed]. rewrite Hrow. rewrite (IH js' _ Hrest).
    unfold add_job. simpl. by rewrite <- app_assoc.
Qed.

(** X28.  When every row has at least two fields and an integer in the
    second, [job_feeder] adds one job for each row, in the order of the
    file, and then calls [shutdown]. *)
Theorem job_feeder_adds_all_then_shuts_down (rows : list (list string))
  (js : list (list pyval)) (sp : spider) :
  Forall2 (fun row job => convert py_int row = inr job) rows js ->
  job_feeder py_int rows sp =
    (Fed, {| jobs := sp.(jobs) ++ js; shut_down := true |}).
Proof.
  intros H. unfold job_feeder. by rewrite (feed_good rows js sp H).
Qed.

(** What [convert] refuses is refused with an exception. *)
Lemma convert_error (row : list string) (e : fed) :
  convert py_int row = inl e -> e <> Fed.
Proof.
  unfold convert. destruct row as [|f0 [|f1 rest]]; try (intros [= <-]; done).
  destruct (py_int f1); [done|]. by intros [= <-].
Qed.

(** X29.  At the first row that has fewer than two fields (a blank line,
    for one) or no integer in the second, [job_feeder] stops with that
    exception: the jobs of the rows before it were added, no later row is
    read, and [shutdown] is not called. *)
Theorem job_feeder_stops_at_bad_row (before after : list (list string))
  (bad : list string) (e : fed) (js : list (list pyval)) (sp : spider) :
  Forall2 (fun row job => convert py_int row = inr job) before js ->
  convert py_int bad = inl e ->
  job_feeder py_int (before ++ bad :: after) sp =
    (e, {| jobs := sp.(jobs) ++ js; shut_down := sp.(shut_down) |}).
Proof.
  intros H Hbad. pose proof (convert_error bad e Hbad) as Hne.
  unfold job_feeder.
  assert (Hfeed : feed py_int (before ++ bad :: after) sp =
                  (e, {| jobs := sp.(jobs) ++ js; shut_down := sp.(shut_down) |})).
  { clear Hne. revert js sp H.
    induction before as [|row rows IH]; intros js sp H.
    - inversion H; subst. cbn [app feed]. rewrite Hbad, app_nil_r.
      by destruct sp.
    - inversion H as [|? job ? js' Hrow Hrest]; subst.
      cbn [app feed]. rewrite Hrow. rewrite (IH js' _ Hrest).
      unfold add_job. simpl. by rewrite <- app_assoc. }
  rewrite Hfeed. by destruct e.
Qed.

End FeederMore.

Lemma job_feeder_adds_all_then_shuts_down_witness :
  job_feeder Scenarios.digits_only Scenarios.two_rows Scenarios.idle_spider =
    (Fed, {| jobs := [] ++ [ [VStr "203.0.113.10"; VInt 80; VStr "example.com"; VStr "1"];
                             [VStr "203.0.113.11"; VInt 443; VStr "example.org"; VStr "2"] ];
             shut_down := true |}).
Proof.
  apply (job_feeder_adds_all_then_shuts_down Scenarios.digits_only
           Scenarios.two_rows).
  repeat constructor.
Defined.

Lemma job_feeder_stops_at_bad_row_witness :
  job_feeder Scenarios.digits_only Scenarios.blank_line_in_the_middle
    Scenarios.idle_spider =
    (FedIndexError,
     {| jobs := [] ++ [ [VStr "203.0.113.10"; VInt 80; VStr "example.com"; VStr "1"] ];
        shut_down := false |}).
Proof.
  apply (job_feeder_stops_at_bad_row Scenarios.digits_only
           [ ["203.0.113.10"; "80"; "example.com"; "1"] ]
           [ ["203.0.113.11"; "443"; "example.org"; "2"] ] [] FedIndexError).
  - repeat constructor.
  - reflexivity.
Defined.

Section WriterMore.

Variable dumps : gmap string pyval -> string.

(** X30.  The output loop writes one line for each record that reaches the
    queue before the first [SHUTDOWN_SENTINEL], in the order of arrival,
    and then ends, leaving what came after the sentinel on the queue;
    without a sentinel it writes every record and does not end. *)
Theorem write_results_until_sentinel (ds : list (gmap string pyval))
  (rest : list item) :
  write_results dumps (map Result ds ++ SHUTDOWN_SENTINEL :: rest) =
    (map (fun d => (dumps d ++ newline)%string) ds, true, rest)
  /\ write_results dumps (map Result ds) =
    (map (fun d => (dumps d ++ newline)%string) ds, false, []).
Proof.
  induction ds as [|d ds [IH1 IH2]]; [done|].
  cbn [map app write_results]. by rewrite IH1, IH2.
Qed.

End WriterMore.

End RunMore.

(** ** The polling loop, as the world sees it *)

Module RecorderFacts.

Import Resolver Recorder ResolverFacts.

Section Lists.

Context {row : Type}.

Lemma answers_app (a b : list (call row)) :
  answers (a ++ b) = answers a ++ answers b.
Proof. induction a as [|e a IH]; [done|]. destruct e; simpl; by rewrite IH. Qed.

Lemma poll_began_app (a b : list (call row)) :
  poll_began (a ++ b) = poll_began a ++ poll_began b.
Proof. induction a as [|e a IH]; [done|]. destruct e; simpl; by rewrite IH. Qed.

Lemma updated_app (a b : list (call row)) :
  forall lu, updated lu (a ++ b) = updated (updated lu a) b.
Proof. induction a as [|e a IH]; intros lu; [done|]. destruct e; simpl; apply IH. Qed.

Lemma refreshes_guarded_app (a b : list (call row)) :
  forall lu,
    refreshes_guarded lu (a ++ b) <->
    refreshes_guarded lu a /\ refreshes_guarded (updated lu a) b.
Proof.
  induction a as [|e a IH]; intros lu; [simpl; tauto|].
  destruct e; simpl; rewrite ?IH; tauto.
Qed.

End Lists.

Section Recorded.

Context {world row token : Type}.

Variable time : world -> Q.
Variable sleep : Q -> world -> world.
Variable retrieve_capabilities : world -> called unit * world.
Variable result_for : token -> world -> called (poll row) * world.
Variable forget : token -> world -> world.

Local Abbreviation rtime := (rtime (row := row) time).
Local Abbreviation rsleep := (rsleep (row := row) sleep).
Local Abbreviation rretrieve :=
  (rretrieve_capabilities (row := row) time retrieve_capabilities).
Local Abbreviation rresult_for := (rresult_for time result_for).
Local Abbreviation rforget := (rforget (row := row) forget).

Local Abbreviation refresh_r := (refresh rtime rretrieve).
Local Abbreviation check_r := (check rtime rretrieve rresult_for rforget).
Local Abbreviation loop_r := (poll_loop rtime rsleep rretrieve rresult_for rforget).

(** *** The record changes nothing *)

Lemma refresh_strip (c : client (world * list (call row))) :
  strip (refresh_r c) = refresh time retrieve_capabilities (strip c).
Proof.
  destruct c as [lu [w0 calls] tr].
  unfold refresh, strip, Recorder.rtime, Recorder.rretrieve_capabilities.
  cbn [w last_updated trace log fst snd].
  destruct (Qlt_le_dec _ _); [|done].
  destruct (retrieve_capabilities w0) as [[u|e] w']; done.
Qed.

Lemma check_strip (tok : token) (c : client (world * list (call row))) :
  match check_r tok c, check time retrieve_capabilities result_for forget tok (strip c) with
  | Again c1, Again c2 => strip c1 = c2
  | Done r1 c1, Done r2 c2 => r1 = r2 /\ strip c1 = c2
  | _, _ => False
  end.
Proof.
  unfold check. rewrite <- refresh_strip.
  destruct (refresh_r c) as [lu [w1 calls] tr]. unfold strip. simpl.
  unfold Recorder.rresult_for, Recorder.rtime. simpl.
  destruct (result_for tok w1) as [[[| |addrs|]|e] w2]; simpl; done.
Qed.

Lemma poll_loop_strip (tok : token) (T : Z) (fuel : nat) :
  forall (ts : Z) (c : client (world * list (call row))),
    poll_loop time sleep retrieve_capabilities result_for forget fuel tok T ts
      (strip c) =
    ((loop_r fuel tok T ts c).1, strip (loop_r fuel tok T ts c).2).
Proof.
  induction fuel as [|fuel IH]; intros ts c; [done|].
  cbn [Resolver.poll_loop]. destruct (ts <? T); [|done].
  pose proof (check_strip tok c) as H.
  destruct (check_r tok c) as [c1|r1 c1],
    (check time retrieve_capabilities result_for forget tok (strip c))
      as [c2|r2 c2]; try done.
  - subst c2. rewrite <- IH. f_equal.
  - destruct H as [-> <-]. done.
Qed.

(** *** What the world sees *)

Hypothesis sleep_advances :
  forall d w0, (time w0 + d <= time (sleep d w0))%Q.
Hypothesis capabilities_take_time :
  forall w0, (time w0 <= time (retrieve_capabilities w0).2)%Q.
Hypothesis polls_take_time :
  forall tok w0, (time w0 <= time (result_for tok w0).2)%Q.

(** The refresh: at most one call, guarded by [last_updated]. *)
Lemma rrefresh_spec (c : client (world * list (call row))) :
  exists evs,
    (refresh_r c).(w).2 = c.(w).2 ++ evs
    /\ answers evs = [] /\ poll_began evs = []
    /\ refreshes_guarded c.(last_updated) evs
    /\ (refresh_r c).(last_updated) = updated c.(last_updated) evs
    /\ (time c.(w).1 <= time (refresh_r c).(w).1)%Q.
Proof.
  destruct c as [lu [w0 calls] tr].
  unfold refresh, Recorder.rtime, Recorder.rretrieve_capabilities.
  cbn [w last_updated trace log fst snd].
  destruct (Qlt_le_dec _ _) as [Hlt|Hge].
  - pose proof (capabilities_take_time w0) as Hc.
    destruct (retrieve_capabilities w0) as [[u|e] w'] eqn:Hr; simpl in *.
    + eexists [CallRefresh _ true _]. simpl. repeat split; try done.
    + eexists [CallRefresh _ false _]. simpl. repeat split; try done.
  - exists []. rewrite app_nil_r. simpl. repeat split; try done. apply Qle_refl.
Qed.

(** One pass: the refresh, then one poll at a time [t] not before the pass
    began, whose answer decides whether the loop goes on. *)
Lemma rcheck_spec (tok : token) (c : client (world * list (call row))) :
  exists evs t a,
    answers evs = [] /\ poll_began evs = []
    /\ refreshes_guarded c.(last_updated) evs
    /\ (time c.(w).1 <= t)%Q
    /\ match check_r tok c with
       | Again c' =>
           unanswered a
           /\ c'.(w).2 = c.(w).2 ++ evs ++ [CallPoll t a]
           /\ c'.(last_updated) = updated c.(last_updated) evs
           /\ (t <= time c'.(w).1)%Q
       | Done r c' =>
           ~ unanswered a
           /\ r = outcome_of a
           /\ exists tail, c'.(w).2 = c.(w).2 ++ evs ++ [CallPoll t a] ++ tail
                /\ answers tail = [] /\ poll_began tail = []
                /\ forall lu, refreshes_guarded lu tail
       end.
Proof.
  destruct (rrefresh_spec c) as (evs & Hw & Ha & Hp & Hg & Hlu & Ht).
  unfold check. cbn [w log].
  destruct (refresh_r c) as [lu1 [w1 calls1] tr1] eqn:Hr. simpl in *.
  unfold Recorder.rresult_for, Recorder.rtime. simpl.
  pose proof (polls_take_time tok w1) as Hpoll.
  exists evs, (time w1).
  destruct (result_for tok w1) as [[[| |addrs|]|e] w2] eqn:Hres; simpl in *.
  - exists (Returns PException). repeat (split; [done|]). split; [tauto|].
    split; [done|]. exists [CallForget]. subst calls1.
    rewrite <- !app_assoc. by repeat split.
  - exists (Returns PReceipt). repeat (split; [done|]). subst calls1.
    rewrite <- !app_assoc. by repeat split.
  - exists (Returns (PResult addrs)). repeat (split; [done|]). split; [tauto|].
    split; [done|]. exists [CallForget]. subst calls1.
    rewrite <- !app_assoc. by repeat split.
  - exists (Returns POther). repeat (split; [done|]). subst calls1.
    rewrite <- !app_assoc. by repeat split.
  - exists (Raises e). repeat (split; [done|]). split; [tauto|].
    split; [done|]. exists []. subst calls1.
    rewrite <- !app_assoc. by repeat split.
Qed.

Lemma rpoll_loop_spec (tok : token) (T : Z) (lu0 : Q) (fuel : nat) :
  forall (ts : Z) (c : client (world * list (call row))),
    steady time lu0 c ->
    (passes_from T ts < fuel)%nat ->
    ended (length (answers c.(w).2) + passes_from T ts)
      (loop_r fuel tok T ts c).1 (answers (loop_r fuel tok T ts c).2.(w).2)
    /\ spaced 5 (poll_began (loop_r fuel tok T ts c).2.(w).2)
    /\ refreshes_guarded lu0 (loop_r fuel tok T ts c).2.(w).2.
Proof.
  induction fuel as [|fuel IH]; intros ts c Hs Hfuel; [lia|].
  destruct Hs as [Hsp Hla Hun Hgu Hup].
  cbn [Resolver.poll_loop].
  destruct (Z.ltb_spec ts T) as [Hlt|Hge].
  - rewrite (passes_from_step T ts Hlt) in *.
    destruct (rcheck_spec tok c) as (evs & t & a & Ha & Hp & Hg & Ht & Hm).
    assert (Hspaced : spaced 5 (poll_began (w c).2 ++ [t])).
    { apply spaced_snoc; [done|]. intros t0 Ht0.
      specialize (Hla t0 Ht0). lra. }
    assert (Hguard : forall tail, (forall lu, refreshes_guarded lu tail) ->
              refreshes_guarded lu0 ((w c).2 ++ evs ++ [CallPoll t a] ++ tail)).
    { intros tail Htail. apply refreshes_guarded_app. split; [done|].
      rewrite <- Hup. apply refreshes_guarded_app. split; [done|].
      simpl. apply Htail. }
    destruct (check_r tok c) as [c'|r c'].
    + destruct Hm as (Hua & Hw' & Hlu' & Htc).
      set (c'' := log (with_world c' (rsleep 5 (w c'))) (EvSleep 5)).
      assert (Hw'' : (w c'').2 = (w c).2 ++ evs ++ [CallPoll t a] ++ [CallSleep 5]).
      { subst c''. simpl. rewrite Hw'. by rewrite <- !app_assoc. }
      assert (Htime'' : (t + 5 <= time (w c'').1)%Q).
      { subst c''. simpl. unfold Recorder.rsleep. simpl.
        pose proof (sleep_advances 5 (w c').1). lra. }
      assert (Hlu'' : last_updated c'' = updated lu0 (w c'').2).
      { rewrite Hw''. subst c''. simpl. rewrite Hlu', Hup.
        rewrite !updated_app. done. }
      clearbody c''. unfold recording in *.
      assert (Hpb'' : poll_began (w c'').2 = poll_began (w c).2 ++ [t]).
      { rewrite Hw'', !poll_began_app, Hp. simpl. by rewrite ?app_nil_r. }
      assert (Han'' : answers (w c'').2 = answers (w c).2 ++ [a]).
      { rewrite Hw'', !answers_app, Ha. simpl. by rewrite ?app_nil_r. }
      assert (Hs'' : steady time lu0 c'').
      { constructor.
        - by rewrite Hpb''.
        - intros t0. rewrite Hpb'', last_snoc. by intros [= <-].
        - rewrite Han''. apply Forall_app. split; [done|]. by constructor.
        - rewrite Hw''. apply Hguard. intros lu. simpl. done.
        - exact Hlu''. }
      destruct (IH (ts + 5) c'' Hs'' ltac:(lia)) as (H1 & H2 & H3).
      repeat split; try done.
      rewrite Han'', length_app in H1. simpl in H1.
      replace (length (answers (w c).2) + 1 + passes_from T (ts + 5))%nat
        with (length (answers (w c).2) + S (passes_from T (ts + 5)))%nat in H1
        by lia.
      exact H1.
    + destruct Hm as (Hna & Hr & tail & Hw' & Hat & Hpt & Hgt). simpl.
      rewrite Hw'. repeat split.
      * exists (answers (w c).2), [a].
        rewrite !answers_app, Ha, Hat. simpl. split; [done|].
        split; [done|]. right. exists a. repeat split; try done. lia.
      * rewrite !poll_began_app, Hp, Hpt. simpl. by rewrite ?app_nil_r.
      * by apply Hguard.
  - rewrite (passes_from_done T ts Hge). simpl. split; [|by split].
    exists (answers (w c).2), []. rewrite app_nil_r. split; [done|].
    split; [done|]. left. split; [done|]. split; [lia|done].
Qed.

(** C9.  The world that keeps a record of the calls made to it, and a
    client started with any [last_updated]: [_fetch_result] behaves as in
    the world without the record; the polls of [result_for] that the world
    saw are at least five seconds apart by the clock; every call of
    [retrieve_capabilities] began more than five seconds after the last
    update; every poll but the last got a receipt (or another answer that is
    neither Exception nor Result); and either all the
    [passes request_timeout] polls that fit into the timeout went
    unanswered and the call raised [TimeoutException], or fewer did and the
    answer of the next poll decided the outcome: [None] for an Exception,
    the rows for a Result, the exception if the poll raised. *)
Theorem fetch_result_polls_throttled_until_timeout
  (tok : token) (request_timeout : Z) (fuel : nat) (lu0 : Q) (w0 : world) :
  (passes request_timeout < fuel)%nat ->
  let out :=
    _fetch_result rtime rsleep rretrieve rresult_for rforget fuel tok
      request_timeout {| last_updated := lu0; w := (w0, []); trace := [] |} in
  _fetch_result time sleep retrieve_capabilities result_for forget fuel tok
    request_timeout {| last_updated := lu0; w := w0; trace := [] |}
    = (out.1, strip out.2)
  /\ ended (passes request_timeout) out.1 (answers out.2.(w).2)
  /\ spaced 5 (poll_began out.2.(w).2)
  /\ refreshes_guarded lu0 out.2.(w).2.
Proof.
  intros Hfuel out. subst out. unfold _fetch_result.
  set (c := {| last_updated := lu0; w := (w0, []); trace := [] |}).
  split.
  - apply (poll_loop_strip tok request_timeout fuel 0 c).
  - assert (Hs : steady time lu0 c) by (constructor; simpl; done).
    rewrite <- passes_from_zero in *.
    apply (rpoll_loop_spec tok request_timeout lu0 fuel 0 c Hs Hfuel).
Qed.

End Recorded.

(** A resolver that only hands out receipts, over thirty seconds. *)
Lemma fetch_result_polls_throttled_until_timeout_witness :
  let out :=
    _fetch_result (rtime Inputs.clock_time) (rsleep Inputs.clock_sleep)
      (rretrieve_capabilities Inputs.clock_time Inputs.capabilities_ok)
      (rresult_for Inputs.clock_time Inputs.always_receipt)
      (rforget Inputs.forget_nothing) 7 tt 30
      {| last_updated := 0%Q; w := (100%Q, []); trace := [] |} in
  _fetch_result Inputs.clock_time Inputs.clock_sleep Inputs.capabilities_ok
    Inputs.always_receipt Inputs.forget_nothing 7 tt 30
    {| last_updated := 0%Q; w := 100%Q; trace := [] |}
    = (out.1, strip out.2)
  /\ ended (passes 30) out.1 (answers out.2.(w).2)
  /\ spaced 5 (poll_began out.2.(w).2)
  /\ refreshes_guarded 0%Q out.2.(w).2.
Proof.
  apply (fetch_result_polls_throttled_until_timeout Inputs.clock_time
           Inputs.clock_sleep Inputs.capabilities_ok Inputs.always_receipt
           Inputs.forget_nothing).
  - intros d w0. unfold Inputs.clock_time, Inputs.clock_sleep. lra.
  - intros w0. simpl. unfold Inputs.clock_time. lra.
  - intros tok w0. simpl. unfold Inputs.clock_time. lra.
  - vm_compute. lia.
Defined.

(** The same run, evaluated: six unanswered polls, then
    [TimeoutException]. *)
Example thirty_seconds_as_the_world_sees_them :
  let out :=
    _fetch_result (rtime Inputs.clock_time) (rsleep Inputs.clock_sleep)
      (rretrieve_capabilities Inputs.clock_time Inputs.capabilities_ok)
      (rresult_for Inputs.clock_time Inputs.always_receipt)
      (rforget Inputs.forget_nothing) 7 tt 30
      {| last_updated := 0%Q; w := (100%Q, []); trace := [] |} in
  out.1 = Raise TimeoutException
  /\ answers out.2.(w).2 = replicate 6 (Returns PReceipt).
Proof. split; vm_compute; reflexivity. Qed.

End RecorderFacts.
